(** * VTX control (src/main/io/vtx_control.c)

    A shallow embedding of the VTX band / channel / power control logic:
    the arming latch, the direct single-step entry points, the activation
    condition selector, the two wrap-around cyclers and the single-button
    hold loop with its LED feedback and its dispatch on release.

    C integers are [Z] with the wrap-around of each conversion written out.
    Calls into the VTX driver, the LED and the configuration store are
    recorded, in program order, as a list of [event]s; what the collaborators
    answer during one call is read from an [env]. *)

From Stdlib Require Import ZArith List Bool Lia Sorted.
Import ListNotations.
Open Scope Z_scope.

(** ** Machine integers *)

Module Int.

(** Conversion to [uint8_t]. *)
Definition u8 (z : Z) : Z := z mod 256.

(** Conversion to [uint32_t] ([timeUs_t]). *)
Definition u32 (z : Z) : Z := z mod 4294967296.

(** Conversion to [int32_t] ([timeDelta_t]), two's complement. *)
Definition i32 (z : Z) : Z := (z + 2147483648) mod 4294967296 - 2147483648.

Definition is_u8 (z : Z) : Prop := 0 <= z <= 255.

End Int.
Import Int.

(** ** Collaborators *)

(** [vtxDeviceCapability_t] (drivers/vtx_common.h): three [uint8_t] counts. *)
Record vtxDeviceCapability_t := mkCapability {
  bandCount : Z;
  channelCount : Z;
  powerCount : Z
}.

(** [channelRange_t]: the two step bounds of an auxiliary channel range. *)
Record channelRange_t := mkRange {
  startStep : Z;
  endStep : Z
}.

(** [vtxChannelActivationCondition_t] (io/vtx_control.h); [band] and
    [channel] are [uint8_t] fields. *)
Record vtxChannelActivationCondition_t := mkCondition {
  auxChannelIndex : Z;
  band : Z;
  channel : Z;
  range : channelRange_t
}.

(** The observable calls made by this file, in program order. The arguments
    of the two driver setters are [uint8_t] parameters. *)
Inductive event : Type :=
| vtxCommonSetBandAndChannel (band channel : Z)
| vtxCommonSetPowerByIndex (index : Z)
| saveConfigAndNotify
| LED1_ON
| LED1_OFF.

(** A driver mutation is a call of one of the two setters. *)
Definition isDriverSet (ev : event) : bool :=
  match ev with
  | vtxCommonSetBandAndChannel _ _ => true
  | vtxCommonSetPowerByIndex _ => true
  | _ => false
  end.

(** What the collaborators answer while one entry point runs. A getter that
    returns [false] is [None]; it then leaves its out-parameters untouched.
    [vtxChannelActivationConditions] is the configured array, of
    [MAX_CHANNEL_ACTIVATION_CONDITION_COUNT] entries (at most 255, so that the
    [uint8_t] loop index does not wrap). *)
Record env := mkEnv {
  ARMED : bool;
  vtxCommonGetBandAndChannel : option (Z * Z);
  vtxCommonGetPowerIndex : option Z;
  vtxCommonGetDeviceCapability : option vtxDeviceCapability_t;
  isRangeActive : Z -> channelRange_t -> bool;
  vtxChannelActivationConditions : list vtxChannelActivationCondition_t
}.

(** The getters write [uint8_t] out-parameters and the capability holds
    [uint8_t] counts. *)
Definition capability_ok (c : vtxDeviceCapability_t) : Prop :=
  is_u8 (bandCount c) /\ is_u8 (channelCount c) /\ is_u8 (powerCount c).

(** ** Static state of the file *)

(** [locked] (file scope) and [lastIndex] (function-local static of
    [vtxUpdateActivatedChannel]), both [uint8_t]. *)
Record statics := mkStatics {
  locked : Z;
  lastIndex : Z
}.

(** [locked = 0] and [lastIndex = -1] converted to [uint8_t]. *)
Definition initial : statics := mkStatics 0 (u8 (-1)).

Definition observeArmed (e : env) (s : statics) : statics :=
  if ARMED e then mkStatics 1 (lastIndex s) else s.

(** ** Direct single-step entry points *)

Definition vtxUpdateBandAndChannel (e : env) (bandStep channelStep : Z)
    (s : statics) : statics * list event :=
  let s := observeArmed e s in
  if locked s =? 0 then
    let '(band, channel) :=
      match vtxCommonGetBandAndChannel e with
      | Some bc => bc
      | None => (0, 0)
      end in
    (s, [vtxCommonSetBandAndChannel (u8 (band + bandStep))
                                    (u8 (channel + channelStep))])
  else (s, []).

Definition vtxIncrementBand (e : env) := vtxUpdateBandAndChannel e (u8 1) 0.
Definition vtxDecrementBand (e : env) := vtxUpdateBandAndChannel e (u8 (-1)) 0.
Definition vtxIncrementChannel (e : env) := vtxUpdateBandAndChannel e 0 (u8 1).
Definition vtxDecrementChannel (e : env) := vtxUpdateBandAndChannel e 0 (u8 (-1)).

(** ** Activation conditions *)

(** The [for] loop of [vtxUpdateActivatedChannel] from [index] on, over the
    remaining array entries; returns the new [lastIndex] and the calls. *)
Fixpoint activationLoop (e : env) (conds : list vtxChannelActivationCondition_t)
    (index last : Z) : Z * list event :=
  match conds with
  | [] => (last, [])
  | c :: rest =>
      if isRangeActive e (auxChannelIndex c) (range c) && negb (index =? last)
      then (index, [vtxCommonSetBandAndChannel (band c) (channel c)])
      else activationLoop e rest (index + 1) last
  end.

Definition vtxUpdateActivatedChannel (e : env) (s : statics)
    : statics * list event :=
  let s := observeArmed e s in
  if locked s =? 0 then
    let '(last, evs) :=
      activationLoop e (vtxChannelActivationConditions e) 0 (lastIndex s) in
    (mkStatics (locked s) last, evs)
  else (s, []).

(** ** Wrap-around cycling *)

(** The [int newChannel] / [int newBand] computation of
    [vtxCycleBandOrChannel]: [current] and [step] are [uint8_t], promoted to
    [int] before the addition. *)
Definition newBandOrChannel (current step count : Z) : Z :=
  let next := current + step in
  if next >? count then 1
  else if next <? 1 then count
  else next.

Definition vtxCycleBandOrChannel (e : env) (bandStep channelStep : Z)
    : list event :=
  match vtxCommonGetBandAndChannel e with
  | None => []
  | Some (band, channel) =>
      match vtxCommonGetDeviceCapability e with
      | None => []
      | Some capability =>
          let newChannel :=
            newBandOrChannel channel channelStep (channelCount capability) in
          let newBand :=
            newBandOrChannel band bandStep (bandCount capability) in
          [vtxCommonSetBandAndChannel (u8 newBand) (u8 newChannel)]
      end
  end.

(** The [int newPower] computation of [vtxCyclePower]. *)
Definition newPower (power powerStep count : Z) : Z :=
  let next := power + powerStep in
  if next >=? count then 0
  else if next <? 0 then count
  else next.

Definition vtxCyclePower (e : env) (powerStep : Z) : list event :=
  match vtxCommonGetPowerIndex e with
  | None => []
  | Some power =>
      match vtxCommonGetDeviceCapability e with
      | None => []
      | Some capability =>
          [vtxCommonSetPowerByIndex
             (u8 (newPower power powerStep (powerCount capability)))]
      end
  end.

(** ** The single-button hold loop *)

(** Modelled from the spec: [cmpTimeUs] is declared in common/time.h, outside
    vtx_control.c; the spec has it as [elapsed(a,b) -> signed microseconds]
    that handles wrap-around of the underlying counter, that is, the
    difference of two [timeUs_t] read as a [timeDelta_t]. *)
Definition cmpTimeUs (a b : Z) : Z := i32 (a - b).

(** The locals of [handleVTXControlButton] that live across iterations. *)
Record hold := mkHold {
  buttonWasPressed : bool;
  ledToggleAt : Z;
  ledEnabled : bool;
  flashesDone : Z;
  actionCounter : Z
}.

Definition holdStart (start : Z) : hold := mkHold false start false 0 0.

(** The threshold chain on [diff]; when no branch fires [actionCounter]
    keeps its value. *)
Definition classify (diff counter : Z) : Z :=
  if (diff >? 25000) && (diff <=? 1000000) then 4
  else if (diff >? 1000000) && (diff <=? 3000000) then 3
  else if (diff >? 3000000) && (diff <=? 5000000) then 2
  else if diff >? 5000000 then 1
  else counter.

Definition updateDuration : Z := 60000.

(** One iteration of the [while] loop, for the clock sample [end_]. *)
Definition holdPoll (start : Z) (h : hold) (end_ : Z) : hold * list event :=
  let diff := cmpTimeUs end_ start in
  let counter := classify diff (actionCounter h) in
  if counter =? 0 then
    (mkHold (buttonWasPressed h) (ledToggleAt h) (ledEnabled h)
            (flashesDone h) counter, [])
  else
    let diff := cmpTimeUs (ledToggleAt h) end_ in
    if diff <? 0 then
      let enabled := negb (ledEnabled h) in
      let toggleAt := u32 (end_ + updateDuration) in
      let flashes := if enabled then flashesDone h
                     else u8 (flashesDone h + 1) in
      let led := if enabled then LED1_ON else LED1_OFF in
      if flashes =? counter then
        (mkHold true
                (u32 (toggleAt + (1000000 - (flashes * updateDuration) * 2)))
                enabled 0 counter, [led])
      else (mkHold true toggleAt enabled flashes counter, [led])
    else
      (mkHold true (ledToggleAt h) (ledEnabled h) (flashesDone h) counter, []).

(** The [while] loop: one clock sample per iteration in which
    [buttonAPressed()] was true. *)
Fixpoint holdLoop (start : Z) (h : hold) (ends : list Z) : hold * list event :=
  match ends with
  | [] => (h, [])
  | end_ :: rest =>
      let '(h1, evs1) := holdPoll start h end_ in
      let '(h2, evs2) := holdLoop start h1 rest in
      (h2, evs1 ++ evs2)
  end.

(** The [switch] on [actionCounter] after release. *)
Definition dispatch (e : env) (counter : Z) : list event :=
  if counter =? 4 then vtxCycleBandOrChannel e 0 (u8 1)
  else if counter =? 3 then vtxCycleBandOrChannel e (u8 1) 0
  else if counter =? 2 then vtxCyclePower e (u8 1)
  else if counter =? 1 then [saveConfigAndNotify]
  else [].

(** [handleVTXControlButton] with [VTX_RTC6705] and [BUTTON_A_PIN] defined:
    [start] is the first clock sample, [ends] the samples of the loop. *)
Definition handleVTXControlButton (e : env) (start : Z) (ends : list Z)
    : list event :=
  let '(h, blink) := holdLoop start (holdStart start) ends in
  if buttonWasPressed h then blink ++ LED1_OFF :: dispatch e (actionCounter h)
  else blink.

(** [actionCounter] when the loop is left. *)
Definition tierAtRelease (start : Z) (ends : list Z) : Z :=
  actionCounter (fst (holdLoop start (holdStart start) ends)).

(** The clock samples of a hold polled at the elapsed times [ds]. *)
Definition samples (start : Z) (ds : list Z) : list Z :=
  map (fun d => u32 (start + d)) ds.

(** ** Entry points and runs *)

Inductive entry : Type :=
| IncrementBand
| DecrementBand
| IncrementChannel
| DecrementChannel
| UpdateActivatedChannel
| CycleBandOrChannel (bandStep channelStep : Z)
| CyclePower (powerStep : Z)
| ControlButton (start : Z) (ends : list Z).

(** One call of an entry point under the answers [e]. *)
Definition call (c : entry) (e : env) (s : statics) : statics * list event :=
  match c with
  | IncrementBand => vtxIncrementBand e s
  | DecrementBand => vtxDecrementBand e s
  | IncrementChannel => vtxIncrementChannel e s
  | DecrementChannel => vtxDecrementChannel e s
  | UpdateActivatedChannel => vtxUpdateActivatedChannel e s
  | CycleBandOrChannel bandStep channelStep =>
      (s, vtxCycleBandOrChannel e (u8 bandStep) (u8 channelStep))
  | CyclePower powerStep => (s, vtxCyclePower e (u8 powerStep))
  | ControlButton start ends => (s, handleVTXControlButton e start ends)
  end.

(** A sequence of calls, each with the collaborators' answers at that time. *)
Fixpoint run (calls : list (entry * env)) (s : statics)
    : statics * list event :=
  match calls with
  | [] => (s, [])
  | (c, e) :: rest =>
      let '(s1, evs1) := call c e s in
      let '(s2, evs2) := run rest s1 in
      (s2, evs1 ++ evs2)
  end.

(** The entry points that consult the arming latch. *)
Definition gated (c : entry) : bool :=
  match c with
  | IncrementBand | DecrementBand | IncrementChannel | DecrementChannel
  | UpdateActivatedChannel => true
  | _ => false
  end.

(** The tier of an elapsed time, following the wording of the spec
    (section 4.4): tier 4 for (25ms, 1s], 3 for (1s, 3s], 2 for (3s, 5s],
    1 above 5s and 0 up to 25ms. *)
Definition tierSpec (elapsed : Z) : Z :=
  if elapsed <=? 25000 then 0
  else if elapsed <=? 1000000 then 4
  else if elapsed <=? 3000000 then 3
  else if elapsed <=? 5000000 then 2
  else 1.

(** ** Predicates used in the statements *)

(** No call of a driver setter among the events. *)
Definition noDriverSet (evs : list event) : bool :=
  forallb (fun ev => negb (isDriverSet ev)) evs.

(** The condition's auxiliary channel is in its range. *)
Definition active (e : env) (c : vtxChannelActivationCondition_t) : bool :=
  isRangeActive e (auxChannelIndex c) (range c).

(** An elapsed time that the signed 32-bit difference represents as it is. *)
Definition inHold (d : Z) : Prop := 0 <= d < 2147483648.

(** A call that only drives the LED. *)
Definition isLed (ev : event) : bool :=
  match ev with
  | LED1_ON | LED1_OFF => true
  | _ => false
  end.

(** [buttonWasPressed] is set exactly when a tier has been reached, and the
    tier is one of 0..4. *)
Definition holdInv (h : hold) : Prop :=
  (buttonWasPressed h = true <-> actionCounter h <> 0) /\
  0 <= actionCounter h <= 4.

(** Sample environments. *)
Definition noRange : Z -> channelRange_t -> bool := fun _ _ => false.

Definition bench (arm : bool) (b c p : Z) : env :=
  mkEnv arm (Some (b, c)) (Some p) (Some (mkCapability 5 8 5)) noRange [].

Definition noInfo : env := mkEnv false None None None noRange [].

Definition noCapability : env :=
  mkEnv false (Some (2, 3)) (Some 1) None noRange [].

Definition auxActive : env :=
  mkEnv false (Some (2, 3)) (Some 1) (Some (mkCapability 5 8 5))
        (fun _ _ => true) [mkCondition 0 4 7 (mkRange 0 48)].

(** Two configured conditions; only the second one's auxiliary channel is in
    range. *)
Definition twoConditions : env :=
  mkEnv false (Some (2, 3)) (Some 1) (Some (mkCapability 5 8 5))
        (fun aux _ => aux =? 1)
        [mkCondition 0 1 1 (mkRange 0 16); mkCondition 1 4 7 (mkRange 16 32)].

(** ** A driver that accepts what it is asked *)

Definition withBandAndChannel (e : env) (b c : Z) : env :=
  mkEnv (ARMED e) (Some (b, c)) (vtxCommonGetPowerIndex e)
        (vtxCommonGetDeviceCapability e) (isRangeActive e)
        (vtxChannelActivationConditions e).

Definition withPowerIndex (e : env) (p : Z) : env :=
  mkEnv (ARMED e) (vtxCommonGetBandAndChannel e) (Some p)
        (vtxCommonGetDeviceCapability e) (isRangeActive e)
        (vtxChannelActivationConditions e).

(** The answers after the calls [evs], under the assumption that the driver
    accepts every request: its getters then report the band, channel and power
    index last set. Used only where a statement follows a value through
    several calls. *)
Fixpoint accepted (e : env) (evs : list event) : env :=
  match evs with
  | [] => e
  | vtxCommonSetBandAndChannel b c :: rest =>
      accepted (withBandAndChannel e b c) rest
  | vtxCommonSetPowerByIndex p :: rest => accepted (withPowerIndex e p) rest
  | _ :: rest => accepted e rest
  end.

(** The LED calls of [n] successive toggles, from the LED state [on]. *)
Fixpoint blinkPattern (on : bool) (n : nat) : list event :=
  match n with
  | O => []
  | S n' => (if on then LED1_OFF else LED1_ON) :: blinkPattern (negb on) n'
  end.

(** The four direct single-step entry points. *)
Definition directStep (c : entry) : bool :=
  match c with
  | IncrementBand | DecrementBand | IncrementChannel | DecrementChannel => true
  | _ => false
  end.

(** Two hold states that agree up to a shift of the clock by [start]. *)
Definition shifted (start : Z) (h h0 : hold) : Prop :=
  buttonWasPressed h = buttonWasPressed h0 /\
  ledEnabled h = ledEnabled h0 /\
  flashesDone h = flashesDone h0 /\
  actionCounter h = actionCounter h0 /\
  u32 (ledToggleAt h - start) = u32 (ledToggleAt h0).

Definition bothActive : env :=
  mkEnv false (Some (2, 3)) (Some 1) (Some (mkCapability 5 8 5))
        (fun aux _ => negb (aux =? 1))
        [mkCondition 0 1 1 (mkRange 0 16); mkCondition 1 4 7 (mkRange 16 32);
         mkCondition 2 3 5 (mkRange 0 48)].

Definition staleBand : env :=
  mkEnv false (Some (9, 8)) (Some 1) (Some (mkCapability 5 8 5)) noRange [].

Definition noChannels : env :=
  mkEnv false (Some (2, 0)) (Some 3) (Some (mkCapability 5 0 0)) noRange [].

Definition stalePower : env :=
  mkEnv false (Some (2, 3)) (Some 7) (Some (mkCapability 5 8 5)) noRange [].

(** * Properties *)

(** ** Machine integers *)

Lemma u8_small : forall z, is_u8 z -> u8 z = z.
Proof. intros z [Hlo Hhi]. unfold u8. apply Z.mod_small. lia. Qed.

Lemma u8_minus_one : u8 (-1) = 255.
Proof. reflexivity. Qed.

Lemma u8_one : u8 1 = 1.
Proof. reflexivity. Qed.

Lemma cmpTimeUs_sample : forall start d,
  -2147483648 <= d < 2147483648 ->
  cmpTimeUs (u32 (start + d)) start = d.
Proof.
  intros start d Hd. unfold cmpTimeUs, i32, u32.
  replace ((start + d) mod 4294967296 - start + 2147483648)
    with ((start + d) mod 4294967296 + (2147483648 - start)) by lia.
  rewrite Zplus_mod_idemp_l.
  replace (start + d + (2147483648 - start)) with (d + 2147483648) by lia.
  rewrite Z.mod_small by lia. lia.
Qed.

(** ** Wrap-around arithmetic *)

Local Ltac cases_Z :=
  repeat match goal with
  | |- context [?a >? ?b] => destruct (Z.gtb_spec a b)
  | |- context [?a >=? ?b] => destruct (Z.geb_spec a b)
  | |- context [?a <? ?b] => destruct (Z.ltb_spec a b)
  | |- context [?a <=? ?b] => destruct (Z.leb_spec a b)
  | |- context [?a =? ?b] => destruct (Z.eqb_spec a b)
  end; simpl; try lia.

Lemma newBandOrChannel_increment : forall current count,
  1 <= current <= count ->
  newBandOrChannel current 1 count
  = if current =? count then 1 else current + 1.
Proof. intros current count H. unfold newBandOrChannel. cases_Z. Qed.

Lemma newBandOrChannel_decrement : forall current count,
  1 <= current <= 255 -> is_u8 count ->
  newBandOrChannel current (u8 (-1)) count = 1.
Proof.
  intros current count H [H0 H1]. rewrite u8_minus_one.
  unfold newBandOrChannel. cases_Z.
Qed.

Lemma newBandOrChannel_hold : forall current count,
  1 <= current <= count -> newBandOrChannel current 0 count = current.
Proof. intros current count H. unfold newBandOrChannel. cases_Z. Qed.

Lemma newBandOrChannel_range : forall current step count,
  1 <= current <= count -> is_u8 count -> step = u8 1 \/ step = u8 (-1) ->
  1 <= newBandOrChannel current step count <= count.
Proof.
  intros current step count H [H0 H1] [-> | ->].
  - rewrite u8_one, newBandOrChannel_increment by lia. cases_Z.
  - rewrite newBandOrChannel_decrement; unfold is_u8; lia.
Qed.

Lemma newPower_no_low_wrap : forall power powerStep count,
  is_u8 power -> is_u8 powerStep ->
  newPower power powerStep count
  = if power + powerStep >=? count then 0 else power + powerStep.
Proof.
  intros power powerStep count [H0 H1] [H2 H3]. unfold newPower. cases_Z.
Qed.

Lemma newPower_increment : forall power count,
  0 <= power <= count - 1 ->
  newPower power 1 count = if power =? count - 1 then 0 else power + 1.
Proof. intros power count H. unfold newPower. cases_Z. Qed.

Lemma newPower_decrement : forall power count,
  is_u8 power -> is_u8 count -> newPower power (u8 (-1)) count = 0.
Proof.
  intros power count [H0 H1] [H2 H3]. rewrite u8_minus_one.
  unfold newPower. cases_Z.
Qed.

Lemma newPower_range : forall power step count,
  0 <= power <= count - 1 -> is_u8 count -> step = u8 1 \/ step = u8 (-1) ->
  0 <= newPower power step count <= count - 1.
Proof.
  intros power step count H [H0 H1] [-> | ->].
  - rewrite u8_one, newPower_increment by lia. cases_Z.
  - rewrite newPower_decrement; unfold is_u8; lia.
Qed.

(** ** The cyclers as called *)

Lemma vtxCycleBandOrChannel_channel : forall e b c cap step,
  vtxCommonGetBandAndChannel e = Some (b, c) ->
  vtxCommonGetDeviceCapability e = Some cap ->
  capability_ok cap ->
  1 <= b <= bandCount cap -> 1 <= c <= channelCount cap ->
  step = u8 1 \/ step = u8 (-1) ->
  vtxCycleBandOrChannel e 0 step
  = [vtxCommonSetBandAndChannel b (newBandOrChannel c step (channelCount cap))].
Proof.
  intros e b c cap step Hbc Hcap (Hb8 & Hc8 & _) Hb Hc Hstep.
  unfold vtxCycleBandOrChannel. rewrite Hbc, Hcap.
  rewrite newBandOrChannel_hold by assumption.
  pose proof (newBandOrChannel_range c step _ Hc Hc8 Hstep) as Hr.
  rewrite !u8_small; [reflexivity | |]; unfold is_u8 in *; lia.
Qed.

Lemma vtxCycleBandOrChannel_band : forall e b c cap step,
  vtxCommonGetBandAndChannel e = Some (b, c) ->
  vtxCommonGetDeviceCapability e = Some cap ->
  capability_ok cap ->
  1 <= b <= bandCount cap -> 1 <= c <= channelCount cap ->
  step = u8 1 \/ step = u8 (-1) ->
  vtxCycleBandOrChannel e step 0
  = [vtxCommonSetBandAndChannel (newBandOrChannel b step (bandCount cap)) c].
Proof.
  intros e b c cap step Hbc Hcap (Hb8 & Hc8 & _) Hb Hc Hstep.
  unfold vtxCycleBandOrChannel. rewrite Hbc, Hcap.
  rewrite newBandOrChannel_hold by assumption.
  pose proof (newBandOrChannel_range b step _ Hb Hb8 Hstep) as Hr.
  rewrite !u8_small; [reflexivity | |]; unfold is_u8 in *; lia.
Qed.

Lemma vtxCyclePower_step : forall e p cap step,
  vtxCommonGetPowerIndex e = Some p ->
  vtxCommonGetDeviceCapability e = Some cap ->
  capability_ok cap ->
  0 <= p <= powerCount cap - 1 ->
  step = u8 1 \/ step = u8 (-1) ->
  vtxCyclePower e step
  = [vtxCommonSetPowerByIndex (newPower p step (powerCount cap))].
Proof.
  intros e p cap step Hp Hcap (_ & _ & Hp8) Hr Hstep.
  unfold vtxCyclePower. rewrite Hp, Hcap.
  pose proof (newPower_range p step _ Hr Hp8 Hstep) as Hn.
  rewrite u8_small; [reflexivity |]. unfold is_u8 in *; lia.
Qed.

(** C2 (code defect): the claim has a decrement from index 1 land on the
    bound, and the [else if (newChannel < 1)] / [else if (newBand < 1)]
    branches of [vtxCycleBandOrChannel] are written to do so. Called with
    step -1 on channel 1 of 8, and on band 1 of 5, the code sets the index
    to 1 again and not to the bound: the step parameter is a [uint8_t], the
    sum 1 + 255 exceeds the count and the [> count] branch fires first. *)
Lemma cycle_decrement_from_one_misses_bound :
  call (CycleBandOrChannel 0 (-1)) (bench false 2 1 0) initial
    = (initial, [vtxCommonSetBandAndChannel 2 1]) /\
  snd (call (CycleBandOrChannel 0 (-1)) (bench false 2 1 0) initial)
    <> [vtxCommonSetBandAndChannel 2 8] /\
  call (CycleBandOrChannel (-1) 0) (bench false 1 3 0) initial
    = (initial, [vtxCommonSetBandAndChannel 1 3]) /\
  snd (call (CycleBandOrChannel (-1) 0) (bench false 1 3 0) initial)
    <> [vtxCommonSetBandAndChannel 5 3].
Proof. repeat split; discriminate. Qed.

(** What the code does on indices in range: for every band and channel in
    [1, count] (counts being [uint8_t]) and a step of +1 or -1,
    [vtxCycleBandOrChannel] with successful queries sets the stepped
    coordinate to an index in [1, count] and leaves the other one alone;
    from the count a step of +1 gives 1; a step of -1, received as 255,
    gives 1 from every index. *)
Theorem cycle_band_channel_in_range : forall e b c cap step s,
  vtxCommonGetBandAndChannel e = Some (b, c) ->
  vtxCommonGetDeviceCapability e = Some cap ->
  capability_ok cap ->
  1 <= b <= bandCount cap -> 1 <= c <= channelCount cap ->
  step = 1 \/ step = -1 ->
  exists b' c',
    call (CycleBandOrChannel step 0) e s
      = (s, [vtxCommonSetBandAndChannel b' c]) /\
    call (CycleBandOrChannel 0 step) e s
      = (s, [vtxCommonSetBandAndChannel b c']) /\
    1 <= b' <= bandCount cap /\ 1 <= c' <= channelCount cap /\
    (step = 1 -> b = bandCount cap -> b' = 1) /\
    (step = 1 -> c = channelCount cap -> c' = 1) /\
    (step = -1 -> b' = 1 /\ c' = 1).
Proof.
  intros e b c cap step s Hbc Hcap Hok Hb Hc Hstep.
  assert (Hs : u8 step = u8 1 \/ u8 step = u8 (-1))
    by (destruct Hstep as [-> | ->]; auto).
  exists (newBandOrChannel b (u8 step) (bandCount cap)),
         (newBandOrChannel c (u8 step) (channelCount cap)).
  simpl. change (u8 0) with 0.
  rewrite (vtxCycleBandOrChannel_band e b c cap) by assumption.
  rewrite (vtxCycleBandOrChannel_channel e b c cap) by assumption.
  destruct Hok as (Hb8 & Hc8 & _).
  split; [reflexivity |]. split; [reflexivity |].
  split; [apply newBandOrChannel_range; assumption |].
  split; [apply newBandOrChannel_range; assumption |].
  split; [| split].
  - intros -> ->. rewrite u8_one, newBandOrChannel_increment by lia.
    rewrite Z.eqb_refl. reflexivity.
  - intros -> ->. rewrite u8_one, newBandOrChannel_increment by lia.
    rewrite Z.eqb_refl. reflexivity.
  - intros ->. unfold is_u8 in Hb8, Hc8.
    rewrite !newBandOrChannel_decrement by (unfold is_u8; lia).
    split; reflexivity.
Qed.

Lemma cycle_band_channel_in_range_witness :
  exists b' c',
    call (CycleBandOrChannel 1 0) (bench false 5 8 0) initial
      = (initial, [vtxCommonSetBandAndChannel b' 8]) /\
    call (CycleBandOrChannel 0 1) (bench false 5 8 0) initial
      = (initial, [vtxCommonSetBandAndChannel 5 c']) /\
    1 <= b' <= 5 /\ 1 <= c' <= 8 /\
    (1 = 1 -> 5 = 5 -> b' = 1) /\
    (1 = 1 -> 8 = 8 -> c' = 1) /\
    (1 = -1 -> b' = 1 /\ c' = 1).
Proof.
  apply (cycle_band_channel_in_range (bench false 5 8 0) 5 8
           (mkCapability 5 8 5) 1 initial);
    try reflexivity; unfold capability_ok, is_u8; simpl; try lia.
Defined.

(** C3 (code defect): the claim has a decrement from power index 0 land on
    the bound, and the [else if (newPower < 0)] branch of [vtxCyclePower] is
    written to do so. Called with step -1 on power index 0 of 5, the code
    sets index 0 and not the bound 5: the step parameter is a [uint8_t], the
    sum 0 + 255 reaches the count and the [>= powerCount] branch fires; the
    [< 0] branch can never be taken. *)
Lemma cycle_power_decrement_from_zero_misses_bound :
  call (CyclePower (-1)) (bench false 2 3 0) initial
    = (initial, [vtxCommonSetPowerByIndex 0]) /\
  snd (call (CyclePower (-1)) (bench false 2 3 0) initial)
    <> [vtxCommonSetPowerByIndex 5].
Proof. split; [reflexivity | discriminate]. Qed.

(** What the code does on indices in range: for every power index in
    [0, count - 1] (the count being a [uint8_t]) and a step of +1 or -1,
    [vtxCyclePower] with successful queries sets an index in [0, count],
    indeed below the count; from count - 1 a step of +1 gives 0; a step of
    -1, received as 255, gives 0 from every index. *)
Theorem cycle_power_in_range : forall e p cap step s,
  vtxCommonGetPowerIndex e = Some p ->
  vtxCommonGetDeviceCapability e = Some cap ->
  capability_ok cap ->
  0 <= p <= powerCount cap - 1 ->
  step = 1 \/ step = -1 ->
  exists p',
    call (CyclePower step) e s = (s, [vtxCommonSetPowerByIndex p']) /\
    0 <= p' <= powerCount cap /\ p' < powerCount cap /\
    (step = 1 -> p = powerCount cap - 1 -> p' = 0) /\
    (step = -1 -> p' = 0).
Proof.
  intros e p cap step s Hp Hcap Hok Hr Hstep.
  assert (Hs : u8 step = u8 1 \/ u8 step = u8 (-1))
    by (destruct Hstep as [-> | ->]; auto).
  exists (newPower p (u8 step) (powerCount cap)). simpl.
  rewrite (vtxCyclePower_step e p cap) by assumption.
  destruct Hok as (_ & _ & Hp8).
  pose proof (newPower_range p (u8 step) _ Hr Hp8 Hs).
  split; [reflexivity |]. split; [lia |]. split; [lia |]. split.
  - intros -> ->. rewrite u8_one, newPower_increment by lia.
    rewrite Z.eqb_refl. reflexivity.
  - intros ->. unfold is_u8 in Hp8.
    apply newPower_decrement; unfold is_u8; lia.
Qed.

Lemma cycle_power_in_range_witness :
  exists p',
    call (CyclePower 1) (bench false 5 8 4) initial
      = (initial, [vtxCommonSetPowerByIndex p']) /\
    0 <= p' <= 5 /\ p' < 5 /\
    (1 = 1 -> 4 = 5 - 1 -> p' = 0) /\
    (1 = -1 -> p' = 0).
Proof.
  apply (cycle_power_in_range (bench false 5 8 4) 4
           (mkCapability 5 8 5) 1 initial);
    try reflexivity; unfold capability_ok, is_u8; simpl; try lia.
Defined.

(** C10: the step parameters are [uint8_t], so -1 arrives as 255. For all
    [uint8_t] power and step the sum is never negative and [vtxCyclePower]
    computes the same index as without its [newPower < 0] branch; a decrement
    of the power goes through the [>= powerCount] branch to 0, and a
    decrement of a band or channel index of at least 1 goes through the
    [> count] branch to 1. *)
Theorem unsigned_step_decrement :
  u8 (-1) = 255 /\
  (forall power powerStep count,
     is_u8 power -> is_u8 powerStep ->
     (power + powerStep <? 0) = false /\
     newPower power powerStep count
       = if power + powerStep >=? count then 0 else power + powerStep) /\
  (forall e s power cap,
     vtxCommonGetPowerIndex e = Some power ->
     vtxCommonGetDeviceCapability e = Some cap ->
     is_u8 power -> capability_ok cap ->
     power + u8 (-1) >= powerCount cap /\
     call (CyclePower (-1)) e s = (s, [vtxCommonSetPowerByIndex 0])) /\
  (forall e s b c cap,
     vtxCommonGetBandAndChannel e = Some (b, c) ->
     vtxCommonGetDeviceCapability e = Some cap ->
     capability_ok cap ->
     1 <= b <= bandCount cap -> 1 <= c <= channelCount cap ->
     b + u8 (-1) > bandCount cap /\ c + u8 (-1) > channelCount cap /\
     call (CycleBandOrChannel (-1) 0) e s
       = (s, [vtxCommonSetBandAndChannel 1 c]) /\
     call (CycleBandOrChannel 0 (-1)) e s
       = (s, [vtxCommonSetBandAndChannel b 1])).
Proof.
  split; [reflexivity |]. split; [| split].
  - intros power powerStep count Hp Hs. split.
    + destruct Hp, Hs. apply Z.ltb_ge. lia.
    + apply newPower_no_low_wrap; assumption.
  - intros e s power cap Hp Hcap Hp8 (Hb & Hc & Hpc). split.
    + rewrite u8_minus_one. unfold is_u8 in *. lia.
    + simpl. unfold vtxCyclePower. rewrite Hp, Hcap.
      rewrite newPower_decrement by assumption. reflexivity.
  - intros e s b c cap Hbc Hcap Hok Hb Hc.
    pose proof Hok as (Hb8 & Hc8 & _).
    rewrite u8_minus_one. unfold is_u8 in Hb8, Hc8.
    split; [lia |]. split; [lia |]. simpl. change (u8 0) with 0.
    rewrite (vtxCycleBandOrChannel_band e b c cap),
            (vtxCycleBandOrChannel_channel e b c cap); auto.
    rewrite !newBandOrChannel_decrement; unfold is_u8; try lia.
    split; reflexivity.
Qed.

Lemma unsigned_step_decrement_witness :
  call (CyclePower (-1)) (bench false 2 3 4) initial
    = (initial, [vtxCommonSetPowerByIndex 0]) /\
  call (CycleBandOrChannel (-1) 0) (bench false 2 3 4) initial
    = (initial, [vtxCommonSetBandAndChannel 1 3]).
Proof.
  destruct unsigned_step_decrement as (_ & _ & Hpower & Hband). split.
  - apply (Hpower (bench false 2 3 4) initial 4 (mkCapability 5 8 5));
      try reflexivity; unfold capability_ok, is_u8; simpl; lia.
  - apply (Hband (bench false 2 3 4) initial 2 3 (mkCapability 5 8 5));
      try reflexivity; unfold capability_ok, is_u8; simpl; lia.
Defined.

(** ** Failed driver queries *)

(** C7: when the band / channel read, the power index read or the capability
    query gives no information, the cycling operation makes no call at all
    and changes nothing: no setter, no retry, nothing reported. *)
Theorem cycle_abandoned_without_info : forall e s bandStep channelStep powerStep,
  (vtxCommonGetBandAndChannel e = None \/
   vtxCommonGetDeviceCapability e = None ->
   call (CycleBandOrChannel bandStep channelStep) e s = (s, [])) /\
  (vtxCommonGetPowerIndex e = None \/
   vtxCommonGetDeviceCapability e = None ->
   call (CyclePower powerStep) e s = (s, [])).
Proof.
  intros e s bandStep channelStep powerStep. split; intros [H | H]; simpl.
  - unfold vtxCycleBandOrChannel. rewrite H. reflexivity.
  - unfold vtxCycleBandOrChannel. rewrite H.
    destruct (vtxCommonGetBandAndChannel e) as [[b c] |]; reflexivity.
  - unfold vtxCyclePower. rewrite H. reflexivity.
  - unfold vtxCyclePower. rewrite H.
    destruct (vtxCommonGetPowerIndex e); reflexivity.
Qed.

Lemma cycle_abandoned_without_info_witness :
  call (CycleBandOrChannel 0 1) noInfo initial = (initial, []) /\
  call (CyclePower 1) noCapability initial = (initial, []).
Proof.
  split.
  - apply (proj1 (cycle_abandoned_without_info noInfo initial 0 1 1)).
    left. reflexivity.
  - apply (proj2 (cycle_abandoned_without_info noCapability initial 0 1 1)).
    right. reflexivity.
Defined.

(** ** Direct single steps *)

(** C6 as stated fails: at band 5 of 5 and channel 8 of 8 the increment-band
    entry point does not ask the driver for band 1, nor the
    increment-channel entry point for channel 1. *)
Lemma direct_increment_does_not_wrap :
  snd (call IncrementBand (bench false 5 8 0) initial)
    <> [vtxCommonSetBandAndChannel 1 8] /\
  snd (call IncrementChannel (bench false 5 8 0) initial)
    <> [vtxCommonSetBandAndChannel 5 1].
Proof. split; discriminate. Qed.

(** C6 (amended): while unlocked and disarmed, the direct increment entry
    points read band and channel and hand the driver the sum with the step,
    as a [uint8_t]; the device capability is not consulted. At band 5 and
    channel 8 of a 5 x 8 device they request (6, 8) and (5, 9). *)
Theorem direct_increment_requests_sum : forall e s b c,
  ARMED e = false -> locked s = 0 ->
  vtxCommonGetBandAndChannel e = Some (b, c) ->
  is_u8 b -> is_u8 c ->
  call IncrementBand e s = (s, [vtxCommonSetBandAndChannel (u8 (b + 1)) c]) /\
  call IncrementChannel e s = (s, [vtxCommonSetBandAndChannel b (u8 (c + 1))]).
Proof.
  intros e s b c Harm Hlock Hbc Hb Hc. simpl.
  unfold vtxIncrementBand, vtxIncrementChannel, vtxUpdateBandAndChannel,
    observeArmed.
  rewrite Harm, Hlock, Hbc. simpl. rewrite u8_one, !Z.add_0_r.
  rewrite (u8_small b Hb), (u8_small c Hc). split; reflexivity.
Qed.

Lemma direct_increment_requests_sum_witness :
  call IncrementBand (bench false 5 8 0) initial
    = (initial, [vtxCommonSetBandAndChannel 6 8]) /\
  call IncrementChannel (bench false 5 8 0) initial
    = (initial, [vtxCommonSetBandAndChannel 5 9]).
Proof.
  apply (direct_increment_requests_sum (bench false 5 8 0) initial 5 8);
    try reflexivity; unfold is_u8; lia.
Defined.

(** ** The arming latch *)

Lemma observeArmed_locked : forall e s,
  locked s <> 0 -> locked (observeArmed e s) <> 0.
Proof.
  intros e s H. unfold observeArmed. destruct (ARMED e); simpl; [lia | exact H].
Qed.

Lemma observeArmed_lastIndex : forall e s,
  lastIndex (observeArmed e s) = lastIndex s.
Proof. intros e s. unfold observeArmed. destruct (ARMED e); reflexivity. Qed.

Lemma observeArmed_armed : forall e s,
  ARMED e = true -> locked (observeArmed e s) = 1.
Proof. intros e s H. unfold observeArmed. rewrite H. reflexivity. Qed.

Lemma vtxUpdateBandAndChannel_locked : forall e bandStep channelStep s,
  locked (observeArmed e s) <> 0 ->
  vtxUpdateBandAndChannel e bandStep channelStep s = (observeArmed e s, []).
Proof.
  intros e bandStep channelStep s H. unfold vtxUpdateBandAndChannel.
  destruct (Z.eqb_spec (locked (observeArmed e s)) 0); [contradiction |].
  reflexivity.
Qed.

Lemma vtxUpdateActivatedChannel_locked : forall e s,
  locked (observeArmed e s) <> 0 ->
  vtxUpdateActivatedChannel e s = (observeArmed e s, []).
Proof.
  intros e s H. unfold vtxUpdateActivatedChannel.
  destruct (Z.eqb_spec (locked (observeArmed e s)) 0); [contradiction |].
  reflexivity.
Qed.

Lemma gated_call_locked : forall c e s,
  gated c = true -> locked (observeArmed e s) <> 0 ->
  call c e s = (observeArmed e s, []).
Proof.
  intros c e s Hg H. destruct c; try discriminate; simpl;
    solve [ apply vtxUpdateBandAndChannel_locked; exact H
          | apply vtxUpdateActivatedChannel_locked; exact H ].
Qed.

Lemma gated_run_locked : forall calls s,
  forallb (fun ce => gated (fst ce)) calls = true ->
  locked s <> 0 ->
  snd (run calls s) = [] /\
  locked (fst (run calls s)) <> 0 /\
  lastIndex (fst (run calls s)) = lastIndex s.
Proof.
  induction calls as [| [c e] rest IH]; intros s Hg Hl; simpl.
  - auto.
  - simpl in Hg. apply andb_prop in Hg. destruct Hg as [Hc Hrest].
    pose proof (observeArmed_locked e s Hl) as Hl1.
    rewrite (gated_call_locked c e s Hc Hl1).
    destruct (IH (observeArmed e s) Hrest Hl1) as (Hevs & Hlock & Hlast).
    destruct (run rest (observeArmed e s)) as [s2 evs2]. simpl in *.
    subst evs2. rewrite Hlast, observeArmed_lastIndex. auto.
Qed.

(** C1 as stated fails: after the latch has been set by an armed call of the
    increment-band entry point, a button release at tier 4, 3 and 2 and the
    two cyclers called directly still reach the driver's setters, with the
    armed flag still up. *)
Lemma lock_ignored_by_button_and_cyclers :
  locked (fst (run [(IncrementBand, bench true 2 3 0)] initial)) = 1 /\
  run [(IncrementBand, bench true 2 3 0);
       (ControlButton 0 [500000], bench true 2 3 0);
       (ControlButton 0 [2000000], bench true 2 4 0);
       (ControlButton 0 [4000000], bench true 3 4 0);
       (CycleBandOrChannel 0 1, bench true 3 4 1);
       (CyclePower 1, bench true 3 5 1)] initial
  = (mkStatics 1 255,
     [LED1_ON; LED1_OFF; vtxCommonSetBandAndChannel 2 4;
      LED1_ON; LED1_OFF; vtxCommonSetBandAndChannel 3 4;
      LED1_ON; LED1_OFF; vtxCommonSetPowerByIndex 1;
      vtxCommonSetBandAndChannel 3 5;
      vtxCommonSetPowerByIndex 2]) /\
  noDriverSet (snd (run [(IncrementBand, bench true 2 3 0);
                         (ControlButton 0 [500000], bench true 2 3 0)]
                        initial)) = false.
Proof. repeat split. Qed.

(** C1 (amended): once the latch is set, every later call of a direct
    increment / decrement entry point or of the activation-condition
    application makes no call at all, keeps the latch set and leaves the
    last-applied index alone, whatever the collaborators answer; and a call of
    one of these entry points that sees the armed flag sets the latch and
    makes no call itself. *)
Theorem lock_gates_direct_and_activation : forall calls s,
  forallb (fun ce => gated (fst ce)) calls = true ->
  (locked s <> 0 ->
   snd (run calls s) = [] /\
   locked (fst (run calls s)) <> 0 /\
   lastIndex (fst (run calls s)) = lastIndex s) /\
  (forall c e, gated c = true -> ARMED e = true ->
   snd (run ((c, e) :: calls) s) = [] /\
   locked (fst (run ((c, e) :: calls) s)) <> 0).
Proof.
  intros calls s Hg. split.
  - apply gated_run_locked. exact Hg.
  - intros c e Hc Harm.
    assert (Hl : locked s <> 0 \/ locked s = 0) by lia.
    assert (Hl1 : locked (observeArmed e s) <> 0)
      by (rewrite observeArmed_armed by exact Harm; lia).
    simpl. rewrite (gated_call_locked c e s Hc Hl1).
    destruct (gated_run_locked calls (observeArmed e s) Hg Hl1)
      as (Hevs & Hlock & _).
    destruct (run calls (observeArmed e s)) as [s2 evs2]. simpl in *.
    subst evs2. auto.
Qed.

Lemma lock_gates_direct_and_activation_witness :
  (snd (run [(IncrementBand, bench false 2 3 0);
             (UpdateActivatedChannel, auxActive)] (mkStatics 1 255)) = [] /\
   locked (fst (run [(IncrementBand, bench false 2 3 0);
                     (UpdateActivatedChannel, auxActive)] (mkStatics 1 255)))
     <> 0 /\
   lastIndex (fst (run [(IncrementBand, bench false 2 3 0);
                        (UpdateActivatedChannel, auxActive)]
                       (mkStatics 1 255))) = 255) /\
  (snd (run [(DecrementChannel, bench true 2 3 0);
             (IncrementBand, bench false 2 3 0);
             (UpdateActivatedChannel, auxActive)] initial) = [] /\
   locked (fst (run [(DecrementChannel, bench true 2 3 0);
                     (IncrementBand, bench false 2 3 0);
                     (UpdateActivatedChannel, auxActive)] initial)) <> 0).
Proof.
  split.
  - apply (proj1 (lock_gates_direct_and_activation
                    [(IncrementBand, bench false 2 3 0);
                     (UpdateActivatedChannel, auxActive)] (mkStatics 1 255)
                    eq_refl)).
    simpl. lia.
  - apply (proj2 (lock_gates_direct_and_activation
                    [(IncrementBand, bench false 2 3 0);
                     (UpdateActivatedChannel, auxActive)] initial
                    eq_refl)); reflexivity.
Defined.

(** ** Activation conditions *)

(** No active condition with an index other than [last]: the loop runs to
    the end of the array without a call. *)
Lemma activationLoop_none : forall e conds index last,
  (forall k c, nth_error conds k = Some c -> active e c = true ->
               index + Z.of_nat k = last) ->
  activationLoop e conds index last = (last, []).
Proof.
  intros e conds. induction conds as [| c0 rest IH]; intros index last H.
  - reflexivity.
  - simpl. fold (active e c0).
    destruct (active e c0) eqn:Hact; simpl.
    + pose proof (H 0%nat c0 eq_refl Hact) as H0.
      destruct (Z.eqb_spec index last); [| simpl in H0; lia].
      simpl. apply IH. intros k c Hk Hc.
      pose proof (H (S k) c Hk Hc). lia.
    + apply IH. intros k c Hk Hc.
      pose proof (H (S k) c Hk Hc). lia.
Qed.

(** The first active condition with an index other than [last] is applied
    and the loop is left. *)
Lemma activationLoop_first : forall e conds index last k c,
  nth_error conds k = Some c -> active e c = true ->
  index + Z.of_nat k <> last ->
  (forall j c', (j < k)%nat -> nth_error conds j = Some c' ->
                active e c' = true -> index + Z.of_nat j = last) ->
  activationLoop e conds index last
  = (index + Z.of_nat k, [vtxCommonSetBandAndChannel (band c) (channel c)]).
Proof.
  intros e conds. induction conds as [| c0 rest IH];
    intros index last k c Hk Hact Hne Hbefore.
  - destruct k; discriminate.
  - destruct k as [| k]; simpl in Hk.
    + injection Hk as ->. simpl. fold (active e c). rewrite Hact.
      destruct (Z.eqb_spec index last); [simpl in Hne; lia |].
      simpl. rewrite Z.add_0_r. reflexivity.
    + simpl. fold (active e c0).
      assert (Hskip : active e c0 && negb (index =? last) = false).
      { destruct (active e c0) eqn:Hact0; [| reflexivity].
        pose proof (Hbefore 0%nat c0 ltac:(lia) eq_refl Hact0) as H0.
        destruct (Z.eqb_spec index last); [reflexivity | simpl in H0; lia]. }
      rewrite Hskip.
      rewrite (IH (index + 1) last k c Hk Hact); [f_equal; lia | lia |].
      intros j c' Hj Hnth Hc'.
      pose proof (Hbefore (S j) c' ltac:(lia) Hnth Hc'). lia.
Qed.

Lemma vtxUpdateActivatedChannel_quiet : forall e s,
  (forall k c, nth_error (vtxChannelActivationConditions e) k = Some c ->
               active e c = true -> Z.of_nat k = lastIndex s) ->
  vtxUpdateActivatedChannel e s = (observeArmed e s, []).
Proof.
  intros e s H. unfold vtxUpdateActivatedChannel.
  destruct (locked (observeArmed e s) =? 0); [| reflexivity].
  rewrite activationLoop_none.
  - destruct (observeArmed e s); reflexivity.
  - intros k c Hk Hc. rewrite observeArmed_lastIndex. simpl. eauto.
Qed.

Lemma quiet_polls : forall e n s,
  (forall k c, nth_error (vtxChannelActivationConditions e) k = Some c ->
               active e c = true -> Z.of_nat k = lastIndex s) ->
  snd (run (repeat (UpdateActivatedChannel, e) n) s) = [] /\
  lastIndex (fst (run (repeat (UpdateActivatedChannel, e) n) s)) = lastIndex s.
Proof.
  intros e n. induction n as [| n IH]; intros s H; simpl.
  - auto.
  - rewrite vtxUpdateActivatedChannel_quiet by exact H.
    destruct (IH (observeArmed e s)) as [Hevs Hlast].
    { intros k c Hk Hc. rewrite observeArmed_lastIndex. eauto. }
    destruct (run _ (observeArmed e s)) as [s2 evs2]. simpl in *.
    subst evs2. rewrite Hlast, observeArmed_lastIndex. auto.
Qed.

(** C8: a poll of the activation selector (disarmed, latch open, an array of
    at most 255 conditions) applies the first active condition whose index
    differs from the last-applied index: that index is recorded and the
    condition's band and channel are set on the driver as they are. When no
    active condition differs from the last-applied one, a poll makes no call
    and keeps the index; so over any number of polls during which one
    condition is the only active one, it is applied on the first poll if it
    was not the last applied, and never again. *)
Theorem activation_applies_first_new_condition : forall e s,
  (length (vtxChannelActivationConditions e) <= 255)%nat ->
  (forall k c,
     ARMED e = false -> locked s = 0 ->
     nth_error (vtxChannelActivationConditions e) k = Some c ->
     active e c = true -> Z.of_nat k <> lastIndex s ->
     (forall j c', (j < k)%nat ->
        nth_error (vtxChannelActivationConditions e) j = Some c' ->
        active e c' = true -> Z.of_nat j = lastIndex s) ->
     call UpdateActivatedChannel e s
     = (mkStatics 0 (Z.of_nat k),
        [vtxCommonSetBandAndChannel (band c) (channel c)])) /\
  ((forall k c,
      nth_error (vtxChannelActivationConditions e) k = Some c ->
      active e c = true -> Z.of_nat k = lastIndex s) ->
   forall n,
     snd (run (repeat (UpdateActivatedChannel, e) n) s) = [] /\
     lastIndex (fst (run (repeat (UpdateActivatedChannel, e) n) s))
       = lastIndex s) /\
  (forall k c n,
     ARMED e = false -> locked s = 0 ->
     nth_error (vtxChannelActivationConditions e) k = Some c ->
     active e c = true -> Z.of_nat k <> lastIndex s ->
     (forall j c',
        nth_error (vtxChannelActivationConditions e) j = Some c' ->
        active e c' = true -> j = k) ->
     run (repeat (UpdateActivatedChannel, e) (S n)) s
     = (mkStatics 0 (Z.of_nat k),
        [vtxCommonSetBandAndChannel (band c) (channel c)])).
Proof.
  intros e s Hlen.
  assert (Hfirst : forall k c,
     ARMED e = false -> locked s = 0 ->
     nth_error (vtxChannelActivationConditions e) k = Some c ->
     active e c = true -> Z.of_nat k <> lastIndex s ->
     (forall j c', (j < k)%nat ->
        nth_error (vtxChannelActivationConditions e) j = Some c' ->
        active e c' = true -> Z.of_nat j = lastIndex s) ->
     vtxUpdateActivatedChannel e s
     = (mkStatics 0 (Z.of_nat k),
        [vtxCommonSetBandAndChannel (band c) (channel c)])).
  { intros k c Harm Hlock Hk Hact Hne Hbefore.
    unfold vtxUpdateActivatedChannel, observeArmed. rewrite Harm, Hlock. simpl.
    rewrite (activationLoop_first e _ 0 (lastIndex s) k c Hk Hact); auto. }
  split; [exact Hfirst |]. split.
  - intros Hquiet n. apply quiet_polls. exact Hquiet.
  - intros k c n Harm Hlock Hk Hact Hne Honly.
    change (run (repeat (UpdateActivatedChannel, e) (S n)) s)
      with (let '(s1, evs1) := vtxUpdateActivatedChannel e s in
            let '(s2, evs2) := run (repeat (UpdateActivatedChannel, e) n) s1 in
            (s2, evs1 ++ evs2)).
    rewrite (Hfirst k c Harm Hlock Hk Hact Hne).
    + destruct (quiet_polls e n (mkStatics 0 (Z.of_nat k))) as [Hevs Hlast].
      { intros j c' Hj Hc'. simpl. rewrite (Honly j c' Hj Hc'). reflexivity. }
      assert (Hl : locked (fst (run (repeat (UpdateActivatedChannel, e) n)
                                    (mkStatics 0 (Z.of_nat k)))) = 0).
      { clear Hevs Hlast. generalize (Z.of_nat k). induction n as [| n IHn];
          intros z; simpl; [reflexivity |].
        unfold vtxUpdateActivatedChannel, observeArmed. rewrite Harm. simpl.
        destruct (activationLoop e _ 0 z) as [last evs].
        specialize (IHn last).
        destruct (run (repeat (UpdateActivatedChannel, e) n) (mkStatics 0 last)).
        simpl in *. exact IHn. }
      destruct (run (repeat (UpdateActivatedChannel, e) n)
                    (mkStatics 0 (Z.of_nat k))) as [[l2 i2] evs2].
      simpl in *. subst. reflexivity.
    + intros j c' Hlt Hj Hc'. pose proof (Honly j c' Hj Hc'). lia.
Qed.

Lemma activation_applies_first_new_condition_witness :
  call UpdateActivatedChannel twoConditions initial
    = (mkStatics 0 1, [vtxCommonSetBandAndChannel 4 7]) /\
  snd (run (repeat (UpdateActivatedChannel, twoConditions) 3) (mkStatics 0 1))
    = [] /\
  run (repeat (UpdateActivatedChannel, twoConditions) 4) initial
    = (mkStatics 0 1, [vtxCommonSetBandAndChannel 4 7]).
Proof.
  assert (Hlen : (length (vtxChannelActivationConditions twoConditions)
                  <= 255)%nat) by (simpl; lia).
  split; [| split].
  - apply (proj1 (activation_applies_first_new_condition
                    twoConditions initial Hlen) 1%nat
                 (mkCondition 1 4 7 (mkRange 16 32)));
      try reflexivity; [discriminate |].
    intros j c' Hlt Hj Hc'. destruct j as [| j]; [| lia].
    simpl in Hj. injection Hj as <-. discriminate Hc'.
  - apply (proj1 (proj2 (activation_applies_first_new_condition
                           twoConditions (mkStatics 0 1) Hlen))).
    intros k c Hk Hc. destruct k as [| [| k]]; simpl in Hk.
    + injection Hk as <-. discriminate Hc.
    + reflexivity.
    + destruct k; discriminate Hk.
  - apply (proj2 (proj2 (activation_applies_first_new_condition
                           twoConditions initial Hlen)) 1%nat
                 (mkCondition 1 4 7 (mkRange 16 32)) 3%nat);
      try reflexivity; [discriminate |].
    intros j c' Hj Hc'. destruct j as [| [| j]]; simpl in Hj.
    + injection Hj as <-. discriminate Hc'.
    + reflexivity.
    + destruct j; discriminate Hj.
Defined.

(** ** The hold classifier *)

Lemma classify_fresh : forall diff, classify diff 0 = tierSpec diff.
Proof. intros diff. unfold classify, tierSpec. cases_Z. Qed.

Lemma classify_past_debounce : forall diff counter,
  25000 < diff -> classify diff counter = tierSpec diff.
Proof. intros diff counter H. unfold classify, tierSpec. cases_Z. Qed.

Lemma classify_debounce : forall diff counter,
  diff <= 25000 -> classify diff counter = counter.
Proof. intros diff counter H. unfold classify. cases_Z. Qed.

Lemma classify_range : forall diff counter,
  0 <= counter <= 4 -> 0 <= classify diff counter <= 4.
Proof. intros diff counter H. unfold classify. cases_Z. Qed.

Lemma classify_zero : forall diff counter,
  classify diff counter = 0 -> counter = 0.
Proof. intros diff counter. unfold classify. cases_Z. Qed.

Lemma tierSpec_antitone : forall a b,
  25000 < a -> a <= b -> 1 <= tierSpec b <= tierSpec a.
Proof. intros a b Ha Hab. unfold tierSpec. cases_Z. Qed.

Lemma holdPoll_actionCounter : forall start h end_,
  actionCounter (fst (holdPoll start h end_))
  = classify (cmpTimeUs end_ start) (actionCounter h).
Proof.
  intros start h end_. unfold holdPoll.
  repeat match goal with
  | |- context [if ?b then _ else _] => destruct b
  end; reflexivity.
Qed.

Lemma holdLoop_actionCounter : forall start ends h,
  actionCounter (fst (holdLoop start h ends))
  = fold_left (fun counter end_ => classify (cmpTimeUs end_ start) counter)
              ends (actionCounter h).
Proof.
  intros start ends. induction ends as [| end_ rest IH]; intros h; simpl.
  - reflexivity.
  - pose proof (holdPoll_actionCounter start h end_) as Hp.
    destruct (holdPoll start h end_) as [h1 evs1]. simpl in Hp.
    specialize (IH h1).
    destruct (holdLoop start h1 rest) as [h2 evs2]. simpl in *.
    rewrite IH, Hp. reflexivity.
Qed.

Lemma last_cons_cons : forall (d d' : Z) ds,
  last (d :: d' :: ds) 0 = last (d' :: ds) 0.
Proof. reflexivity. Qed.

Lemma last_In : forall (ds : list Z) d, In (last (d :: ds) 0) (d :: ds).
Proof.
  induction ds as [| d' ds IH]; intros d.
  - left. reflexivity.
  - rewrite last_cons_cons. right. apply IH.
Qed.

(** Polled forward in time, the counter follows the latest elapsed time. *)
Lemma fold_classify_samples : forall start ds counter,
  StronglySorted Z.le ds -> Forall inHold ds ->
  fold_left (fun c end_ => classify (cmpTimeUs end_ start) c)
            (samples start ds) counter
  = if last ds 0 <=? 25000 then counter else tierSpec (last ds 0).
Proof.
  intros start ds. induction ds as [| d ds IH]; intros counter Hs Hr.
  - reflexivity.
  - inversion Hs as [| ? ? Hs' Hle]; subst.
    inversion Hr as [| ? ? Hd Hr']; subst.
    simpl fold_left. rewrite cmpTimeUs_sample by (unfold inHold in Hd; lia).
    fold (samples start ds). rewrite (IH _ Hs' Hr').
    destruct ds as [| d' ds].
    + simpl. destruct (Z.leb_spec d 25000).
      * apply classify_debounce; assumption.
      * apply classify_past_debounce; assumption.
    + rewrite last_cons_cons.
      destruct (Z.leb_spec (last (d' :: ds) 0) 25000); [| reflexivity].
      apply classify_debounce.
      pose proof (last_In ds d') as Hin.
      rewrite Forall_forall in Hle. specialize (Hle _ Hin). lia.
Qed.

Lemma tierAtRelease_samples : forall start ds,
  Sorted Z.le ds -> Forall inHold ds ->
  tierAtRelease start (samples start ds) = tierSpec (last ds 0).
Proof.
  intros start ds Hs Hr. unfold tierAtRelease.
  rewrite holdLoop_actionCounter. simpl actionCounter.
  rewrite fold_classify_samples; auto.
  - unfold tierSpec. destruct (last ds 0 <=? 25000); reflexivity.
  - apply Sorted_StronglySorted; [| exact Hs].
    intros x y z. apply Z.le_trans.
Qed.

(** C4 as stated fails for holds beyond the range of the signed 32-bit
    difference: polled at 6 s and again 2^32 us + 500 ms into the hold, far
    above 5 s, the tier at release is 4 and not 1; and a hold first polled
    3000 s in (between 2^31 and 2^32 us) is still at tier 0. *)
Lemma tier_not_1_beyond_signed_range :
  5000000 < 4294967296 + 500000 /\
  tierAtRelease 0 (samples 0 [6000000; 4294967296 + 500000]) = 4 /\
  tierAtRelease 0 (samples 0 [6000000; 4294967296 + 500000]) <> 1 /\
  5000000 < 3000000000 /\
  tierAtRelease 0 (samples 0 [3000000000]) = 0 /\
  tierAtRelease 0 (samples 0 [3000000000]) <> 1.
Proof.
  split; [lia |]. split; [reflexivity |]. split; [discriminate |].
  split; [lia |]. split; [reflexivity | discriminate].
Qed.

(** C4 (amended): for every elapsed time below 2^31 us, the range of the
    signed 32-bit difference, the hold classifier maps the elapsed time to
    a tier by the fixed thresholds. The threshold chain gives tier 4 in
    (25 ms, 1 s], 3 in (1 s, 3 s], 2 in (3 s, 5 s] and 1 above 5 s,
    whatever the counter was, and up to 25 ms it leaves the counter as it
    is, 0 in a fresh hold. In a hold polled forward in time with elapsed
    times below 2^31 us, the tier at release is that of the last poll,
    0 up to 25 ms: 10 ms gives 0, 500 ms gives 4, 2 s gives 3, 4 s gives 2
    and 6 s gives 1. *)
Theorem hold_tier_thresholds :
  (forall diff counter,
     (diff <= 25000 -> classify diff counter = counter) /\
     (25000 < diff <= 1000000 -> classify diff counter = 4) /\
     (1000000 < diff <= 3000000 -> classify diff counter = 3) /\
     (3000000 < diff <= 5000000 -> classify diff counter = 2) /\
     (5000000 < diff -> classify diff counter = 1)) /\
  (forall start ds d,
     Sorted Z.le (ds ++ [d]) -> Forall inHold (ds ++ [d]) ->
     (d <= 25000 -> tierAtRelease start (samples start (ds ++ [d])) = 0) /\
     (25000 < d <= 1000000 ->
      tierAtRelease start (samples start (ds ++ [d])) = 4) /\
     (1000000 < d <= 3000000 ->
      tierAtRelease start (samples start (ds ++ [d])) = 3) /\
     (3000000 < d <= 5000000 ->
      tierAtRelease start (samples start (ds ++ [d])) = 2) /\
     (5000000 < d ->
      tierAtRelease start (samples start (ds ++ [d])) = 1)) /\
  tierAtRelease 0 (samples 0 [10000]) = 0 /\
  tierAtRelease 0 (samples 0 [500000]) = 4 /\
  tierAtRelease 0 (samples 0 [2000000]) = 3 /\
  tierAtRelease 0 (samples 0 [4000000]) = 2 /\
  tierAtRelease 0 (samples 0 [6000000]) = 1.
Proof.
  split; [| split].
  - intros diff counter. unfold classify. repeat split; intros H; cases_Z.
  - intros start ds d Hs Hr.
    rewrite (tierAtRelease_samples start _ Hs Hr), last_last.
    unfold tierSpec. repeat split; intros H; cases_Z.
  - repeat split.
Qed.

Lemma hold_tier_thresholds_witness :
  classify 2000000 4 = 3 /\
  tierAtRelease 4294000000 (samples 4294000000 [10000; 400000; 4200000]) = 2.
Proof.
  split.
  - apply (proj1 hold_tier_thresholds 2000000 4). lia.
  - apply (proj1 (proj2 hold_tier_thresholds) 4294000000 [10000; 400000] 4200000).
    + repeat constructor; lia.
    + repeat constructor; unfold inHold; lia.
    + lia.
Defined.

(** ** Order of the tiers in time *)

Lemma StronglySorted_middle : forall l1 t l2,
  StronglySorted Z.le (l1 ++ t :: l2) ->
  StronglySorted Z.le (l1 ++ [t]) /\ Forall (Z.le t) l2.
Proof.
  induction l1 as [| a l1 IH]; intros t l2 H; simpl in *.
  - apply StronglySorted_inv in H. destruct H as [_ H]. split.
    + repeat constructor.
    + exact H.
  - apply StronglySorted_inv in H. destruct H as [Hs Ha].
    destruct (IH _ _ Hs) as [Hs1 Ht]. split; [| exact Ht].
    constructor; [exact Hs1 |].
    apply Forall_app in Ha. destruct Ha as [Ha1 Ha2].
    apply Forall_app. split; [exact Ha1 |].
    inversion Ha2; subst. constructor; [assumption | constructor].
Qed.

(** C9 as stated fails: in one hold polled at 500 ms and again at 2 s the
    tier goes from 4 to 3. *)
Lemma tier_drops_between_500ms_and_2s :
  500000 <= 2000000 /\
  tierAtRelease 0 (samples 0 [500000]) = 4 /\
  tierAtRelease 0 (samples 0 [500000; 2000000]) = 3 /\
  ~ (tierAtRelease 0 (samples 0 [500000])
     <= tierAtRelease 0 (samples 0 [500000; 2000000])).
Proof.
  split; [lia |]. split; [reflexivity |]. split; [reflexivity |].
  vm_compute. intros H. apply H. reflexivity.
Qed.

(** C9 (amended): within one hold polled forward in time (elapsed times below
    2^31 us), once a poll instant [t1] is past the 25 ms debounce window the
    tier never goes up again: at every later poll instant [t2] the tier is
    at most the tier at [t1], and still at least 1. *)
Theorem tier_non_increasing_after_debounce : forall start ds1 t1 ds2 t2,
  Sorted Z.le (ds1 ++ t1 :: ds2 ++ [t2]) ->
  Forall inHold (ds1 ++ t1 :: ds2 ++ [t2]) ->
  25000 < t1 ->
  1 <= tierAtRelease start (samples start (ds1 ++ t1 :: ds2 ++ [t2]))
    <= tierAtRelease start (samples start (ds1 ++ [t1])).
Proof.
  intros start ds1 t1 ds2 t2 Hs Hr Ht1.
  assert (Hss : StronglySorted Z.le (ds1 ++ t1 :: ds2 ++ [t2])).
  { apply Sorted_StronglySorted; [| exact Hs]. intros x y z. apply Z.le_trans. }
  destruct (StronglySorted_middle _ _ _ Hss) as [Hs1 Hle].
  assert (Ht : t1 <= t2).
  { apply Forall_app in Hle. destruct Hle as [_ Hle].
    inversion Hle; assumption. }
  assert (Hr1 : Forall inHold (ds1 ++ [t1])).
  { apply Forall_app in Hr. destruct Hr as [Hr1 Hr2]. apply Forall_app.
    split; [exact Hr1 |]. inversion Hr2; subst.
    constructor; [assumption | constructor]. }
  rewrite (tierAtRelease_samples start (ds1 ++ [t1]))
    by (auto using StronglySorted_Sorted).
  rewrite last_last.
  replace (ds1 ++ t1 :: ds2 ++ [t2]) with ((ds1 ++ t1 :: ds2) ++ [t2]) in *
    by (rewrite <- app_assoc; reflexivity).
  rewrite (tierAtRelease_samples start _ Hs Hr), last_last.
  apply tierSpec_antitone; assumption.
Qed.

Lemma tier_non_increasing_after_debounce_witness :
  1 <= tierAtRelease 7 (samples 7 [10000; 500000; 900000; 2000000])
    <= tierAtRelease 7 (samples 7 [10000; 500000]).
Proof.
  apply (tier_non_increasing_after_debounce 7 [10000] 500000 [900000] 2000000).
  - repeat constructor; lia.
  - repeat constructor; unfold inHold; lia.
  - lia.
Defined.

(** ** Dispatch on release *)

Lemma holdStart_inv : forall start, holdInv (holdStart start).
Proof.
  intros start. unfold holdInv, holdStart. simpl. split; [| lia].
  split; [discriminate | intros H; contradiction H; reflexivity].
Qed.

Lemma holdPoll_inv : forall start h end_,
  holdInv h ->
  holdInv (fst (holdPoll start h end_)) /\
  forallb isLed (snd (holdPoll start h end_)) = true /\
  (actionCounter (fst (holdPoll start h end_)) = 0 ->
   actionCounter h = 0 /\ snd (holdPoll start h end_) = []).
Proof.
  intros start h end_ [Hbwp Hrange].
  pose proof (classify_range (cmpTimeUs end_ start) _ Hrange) as Hc.
  pose proof (classify_zero (cmpTimeUs end_ start) (actionCounter h)) as Hz.
  unfold holdPoll, holdInv.
  destruct (Z.eqb_spec (classify (cmpTimeUs end_ start) (actionCounter h)) 0)
    as [H0 | Hn0].
  - simpl. rewrite H0. specialize (Hz H0).
    split; [split; [split |] |]; [| | lia | auto].
    + intros Hb. apply Hbwp in Hb. contradiction.
    + intros Hb. contradiction Hb. reflexivity.
  - destruct (cmpTimeUs (ledToggleAt h) end_ <? 0).
    + destruct (negb (ledEnabled h));
        match goal with
        | |- context [if ?b then _ else _] => destruct b
        end; simpl; repeat split; auto; try lia; try contradiction.
    + simpl. repeat split; auto; try lia; try contradiction.
Qed.

Lemma holdLoop_inv : forall start ends h,
  holdInv h ->
  holdInv (fst (holdLoop start h ends)) /\
  forallb isLed (snd (holdLoop start h ends)) = true /\
  (actionCounter (fst (holdLoop start h ends)) = 0 ->
   actionCounter h = 0 /\ snd (holdLoop start h ends) = []).
Proof.
  intros start ends. induction ends as [| end_ rest IH]; intros h Hinv; simpl.
  - auto.
  - destruct (holdPoll_inv start h end_ Hinv) as (Hinv1 & Hled1 & Hz1).
    destruct (holdPoll start h end_) as [h1 evs1]. simpl in *.
    destruct (IH h1 Hinv1) as (Hinv2 & Hled2 & Hz2).
    destruct (holdLoop start h1 rest) as [h2 evs2]. simpl in *.
    split; [exact Hinv2 |]. split.
    + rewrite forallb_app, Hled1, Hled2. reflexivity.
    + intros H0. destruct (Hz2 H0) as [H1 ->].
      destruct (Hz1 H1) as [Hh ->]. auto.
Qed.

Lemma handleVTXControlButton_cases : forall e start ends,
  (tierAtRelease start ends = 0 /\ handleVTXControlButton e start ends = []) \/
  (1 <= tierAtRelease start ends <= 4 /\
   handleVTXControlButton e start ends
   = snd (holdLoop start (holdStart start) ends)
     ++ LED1_OFF :: dispatch e (tierAtRelease start ends)).
Proof.
  intros e start ends. unfold tierAtRelease, handleVTXControlButton.
  destruct (holdLoop_inv start ends _ (holdStart_inv start))
    as ([Hbwp Hrange] & _ & Hz).
  destruct (holdLoop start (holdStart start) ends) as [h evs]. simpl in *.
  destruct (Z.eq_dec (actionCounter h) 0) as [H0 | Hn0].
  - left. split; [exact H0 |]. destruct (Hz H0) as [_ ->].
    destruct (buttonWasPressed h); [| reflexivity].
    exfalso. apply (proj1 Hbwp eq_refl). exact H0.
  - right. split; [lia |]. rewrite (proj2 Hbwp Hn0). reflexivity.
Qed.

(** C5: when the button is released, the tier then held decides the one
    action: tier 4 calls the band / channel cycler with a channel step of
    +1, tier 3 with a band step of +1, tier 2 calls the power cycler with a
    step of +1, tier 1 saves the configuration and notifies; each follows
    the blink calls of the hold (LED calls only) and the final LED-off. At
    tier 0, the press never having passed the debounce window, the whole
    call does nothing at all. The tier is always one of 0..4. On a device
    that answers its queries with indices in range, the one setter call
    carries the index read plus one, or the bottom index when the index read
    was the top one, and the other coordinate as read. *)
Theorem release_dispatches_by_tier : forall e start ends,
  let tier := tierAtRelease start ends in
  let blink := snd (holdLoop start (holdStart start) ends) in
  0 <= tier <= 4 /\
  forallb isLed blink = true /\
  (tier = 4 ->
   handleVTXControlButton e start ends
   = blink ++ LED1_OFF :: vtxCycleBandOrChannel e 0 1) /\
  (tier = 3 ->
   handleVTXControlButton e start ends
   = blink ++ LED1_OFF :: vtxCycleBandOrChannel e 1 0) /\
  (tier = 2 ->
   handleVTXControlButton e start ends
   = blink ++ LED1_OFF :: vtxCyclePower e 1) /\
  (tier = 1 ->
   handleVTXControlButton e start ends
   = blink ++ [LED1_OFF; saveConfigAndNotify]) /\
  (tier = 0 -> handleVTXControlButton e start ends = []) /\
  (forall b c p cap,
     vtxCommonGetBandAndChannel e = Some (b, c) ->
     vtxCommonGetPowerIndex e = Some p ->
     vtxCommonGetDeviceCapability e = Some cap ->
     capability_ok cap ->
     1 <= b <= bandCount cap -> 1 <= c <= channelCount cap ->
     0 <= p <= powerCount cap - 1 ->
     (tier = 4 ->
      handleVTXControlButton e start ends
      = blink ++ [LED1_OFF;
                  vtxCommonSetBandAndChannel
                    b (if c =? channelCount cap then 1 else c + 1)]) /\
     (tier = 3 ->
      handleVTXControlButton e start ends
      = blink ++ [LED1_OFF;
                  vtxCommonSetBandAndChannel
                    (if b =? bandCount cap then 1 else b + 1) c]) /\
     (tier = 2 ->
      handleVTXControlButton e start ends
      = blink ++ [LED1_OFF;
                  vtxCommonSetPowerByIndex
                    (if p =? powerCount cap - 1 then 0 else p + 1)])).
Proof.
  intros e start ends tier blink. subst tier blink.
  pose proof (handleVTXControlButton_cases e start ends) as Hcases.
  assert (Hled : forallb isLed (snd (holdLoop start (holdStart start) ends))
                 = true)
    by (apply (holdLoop_inv start ends _ (holdStart_inv start))).
  assert (Hd : 1 <= tierAtRelease start ends <= 4 ->
               handleVTXControlButton e start ends
               = snd (holdLoop start (holdStart start) ends)
                 ++ LED1_OFF :: dispatch e (tierAtRelease start ends)).
  { destruct Hcases as [[H0 _] | [_ H]]; [lia | intros _; exact H]. }
  split; [destruct Hcases as [[H0 _] | [Hr _]]; lia |].
  split; [exact Hled |].
  split; [intros Ht; rewrite Hd by lia; rewrite Ht; reflexivity |].
  split; [intros Ht; rewrite Hd by lia; rewrite Ht; reflexivity |].
  split; [intros Ht; rewrite Hd by lia; rewrite Ht; reflexivity |].
  split; [intros Ht; rewrite Hd by lia; rewrite Ht; reflexivity |].
  split; [intros Ht; destruct Hcases as [[_ H] | [Hr _]]; [exact H | lia] |].
  intros b c p cap Hbc Hp Hcap Hok Hb Hc Hpr.
  split; [| split]; intros Ht; rewrite Hd by lia; rewrite Ht;
    unfold dispatch; cbn [Z.eqb Pos.eqb]; do 2 f_equal.
  - rewrite (vtxCycleBandOrChannel_channel e b c cap (u8 1) Hbc Hcap Hok
               Hb Hc (or_introl eq_refl)).
    change (u8 1) with 1. rewrite newBandOrChannel_increment by exact Hc.
    reflexivity.
  - rewrite (vtxCycleBandOrChannel_band e b c cap (u8 1) Hbc Hcap Hok
               Hb Hc (or_introl eq_refl)).
    change (u8 1) with 1. rewrite newBandOrChannel_increment by exact Hb.
    reflexivity.
  - rewrite (vtxCyclePower_step e p cap (u8 1) Hp Hcap Hok Hpr
               (or_introl eq_refl)).
    change (u8 1) with 1. rewrite newPower_increment by exact Hpr.
    reflexivity.
Qed.

Lemma release_dispatches_by_tier_witness :
  handleVTXControlButton (bench false 2 3 1) 0 [10000; 200000; 500000]
    = [LED1_ON; LED1_OFF; LED1_OFF; vtxCommonSetBandAndChannel 2 4] /\
  handleVTXControlButton (bench false 2 3 1) 0 [2000000]
    = [LED1_ON; LED1_OFF; vtxCommonSetBandAndChannel 3 3] /\
  handleVTXControlButton (bench false 2 3 1) 0 [4000000]
    = [LED1_ON; LED1_OFF; vtxCommonSetPowerByIndex 2] /\
  handleVTXControlButton (bench false 5 8 4) 0 [500000]
    = [LED1_ON; LED1_OFF; vtxCommonSetBandAndChannel 5 1] /\
  handleVTXControlButton (bench false 5 8 4) 0 [2000000]
    = [LED1_ON; LED1_OFF; vtxCommonSetBandAndChannel 1 8] /\
  handleVTXControlButton (bench false 5 8 4) 0 [4000000]
    = [LED1_ON; LED1_OFF; vtxCommonSetPowerByIndex 0] /\
  handleVTXControlButton (bench false 5 8 4) 0 [6000000]
    = [LED1_ON; LED1_OFF; saveConfigAndNotify] /\
  handleVTXControlButton noInfo 0 [500000] = [LED1_ON; LED1_OFF] /\
  handleVTXControlButton (bench false 5 8 4) 0 [10000; 20000] = [].
Proof.
  assert (Hok : capability_ok (mkCapability 5 8 5))
    by (unfold capability_ok, is_u8; simpl; lia).
  assert (Hmid : forall ends,
            (tierAtRelease 0 ends = 4 ->
             handleVTXControlButton (bench false 2 3 1) 0 ends
             = snd (holdLoop 0 (holdStart 0) ends)
               ++ [LED1_OFF; vtxCommonSetBandAndChannel 2 4]) /\
            (tierAtRelease 0 ends = 3 ->
             handleVTXControlButton (bench false 2 3 1) 0 ends
             = snd (holdLoop 0 (holdStart 0) ends)
               ++ [LED1_OFF; vtxCommonSetBandAndChannel 3 3]) /\
            (tierAtRelease 0 ends = 2 ->
             handleVTXControlButton (bench false 2 3 1) 0 ends
             = snd (holdLoop 0 (holdStart 0) ends)
               ++ [LED1_OFF; vtxCommonSetPowerByIndex 2])).
  { intros ends.
    destruct (release_dispatches_by_tier (bench false 2 3 1) 0 ends)
      as (_ & _ & _ & _ & _ & _ & _ & Hval).
    apply (Hval 2 3 1 (mkCapability 5 8 5) eq_refl eq_refl eq_refl Hok);
      simpl; lia. }
  assert (Htop : forall ends,
            (tierAtRelease 0 ends = 4 ->
             handleVTXControlButton (bench false 5 8 4) 0 ends
             = snd (holdLoop 0 (holdStart 0) ends)
               ++ [LED1_OFF; vtxCommonSetBandAndChannel 5 1]) /\
            (tierAtRelease 0 ends = 3 ->
             handleVTXControlButton (bench false 5 8 4) 0 ends
             = snd (holdLoop 0 (holdStart 0) ends)
               ++ [LED1_OFF; vtxCommonSetBandAndChannel 1 8]) /\
            (tierAtRelease 0 ends = 2 ->
             handleVTXControlButton (bench false 5 8 4) 0 ends
             = snd (holdLoop 0 (holdStart 0) ends)
               ++ [LED1_OFF; vtxCommonSetPowerByIndex 0])).
  { intros ends.
    destruct (release_dispatches_by_tier (bench false 5 8 4) 0 ends)
      as (_ & _ & _ & _ & _ & _ & _ & Hval).
    apply (Hval 5 8 4 (mkCapability 5 8 5) eq_refl eq_refl eq_refl Hok);
      simpl; lia. }
  split; [apply (proj1 (Hmid [10000; 200000; 500000])); reflexivity |].
  split; [apply (proj1 (proj2 (Hmid [2000000]))); reflexivity |].
  split; [apply (proj2 (proj2 (Hmid [4000000]))); reflexivity |].
  split; [apply (proj1 (Htop [500000])); reflexivity |].
  split; [apply (proj1 (proj2 (Htop [2000000]))); reflexivity |].
  split; [apply (proj2 (proj2 (Htop [4000000]))); reflexivity |].
  split.
  { destruct (release_dispatches_by_tier (bench false 5 8 4) 0 [6000000])
      as (_ & _ & _ & _ & _ & H1 & _).
    apply H1. reflexivity. }
  split.
  { destruct (release_dispatches_by_tier noInfo 0 [500000])
      as (_ & _ & H4 & _).
    apply H4. reflexivity. }
  destruct (release_dispatches_by_tier (bench false 5 8 4) 0 [10000; 20000])
    as (_ & _ & _ & _ & _ & _ & H0 & _).
  apply H0. reflexivity.
Defined.

(** * Further properties of the code *)

(** ** The latch over arbitrary runs *)

Lemma call_locked : forall c e s,
  locked (fst (call c e s)) = locked s \/
  (locked (fst (call c e s)) = 1 /\ gated c = true /\ ARMED e = true).
Proof.
  intros c e s.
  assert (Hobs : locked (observeArmed e s) = locked s \/
                 (locked (observeArmed e s) = 1 /\ ARMED e = true)).
  { unfold observeArmed. destruct (ARMED e); simpl; auto. }
  destruct c; simpl; auto;
    try (unfold vtxIncrementBand, vtxDecrementBand, vtxIncrementChannel,
           vtxDecrementChannel, vtxUpdateBandAndChannel;
         destruct (locked (observeArmed e s) =? 0);
         [destruct (vtxCommonGetBandAndChannel e) as [[b c] |] |]; simpl;
         destruct Hobs as [-> | [-> ->]]; auto).
  unfold vtxUpdateActivatedChannel.
  destruct (locked (observeArmed e s) =? 0).
  - destruct (activationLoop e _ 0 _) as [last evs]. simpl.
    destruct Hobs as [-> | [-> ->]]; auto.
  - simpl. destruct Hobs as [-> | [-> ->]]; auto.
Qed.

(** X1: over any sequence of calls of any entry points the latch is either
    what it was, or it is 1 and some call of a gated entry point in the
    sequence saw the armed flag: it is never cleared, and neither the cyclers
    nor the button handler ever set it. *)
Theorem latch_only_set_by_armed_gated_call : forall calls s,
  locked (fst (run calls s)) = locked s \/
  (locked (fst (run calls s)) = 1 /\
   Exists (fun ce => gated (fst ce) = true /\ ARMED (snd ce) = true) calls).
Proof.
  induction calls as [| [c e] rest IH]; intros s; simpl.
  - left. reflexivity.
  - pose proof (call_locked c e s) as Hc.
    destruct (call c e s) as [s1 evs1]. simpl in Hc.
    specialize (IH s1). destruct (run rest s1) as [s2 evs2]. simpl in *.
    destruct IH as [IH | [IH Hex]].
    + rewrite IH. destruct Hc as [Hc | (Hc & Hg & Ha)]; [left; exact Hc |].
      right. split; [exact Hc |]. apply Exists_cons_hd. simpl. auto.
    + right. split; [exact IH |]. apply Exists_cons_tl. exact Hex.
Qed.

(** ** Direct single steps *)

Lemma u8_succ_pred : forall b, is_u8 b -> u8 (u8 (b + 1) + 255) = b.
Proof.
  intros b [H0 H1]. unfold u8.
  destruct (Z.eq_dec b 255) as [-> | Hne]; [reflexivity |].
  rewrite (Z.mod_small (b + 1)) by lia.
  replace (b + 1 + 255) with (b + 1 * 256) by lia.
  rewrite Z_mod_plus_full. apply Z.mod_small. lia.
Qed.

Lemma u8_pred_succ : forall b, is_u8 b -> u8 (u8 (b + 255) + 1) = b.
Proof.
  intros b [H0 H1]. unfold u8.
  destruct (Z.eq_dec b 0) as [-> | Hne]; [reflexivity |].
  replace (b + 255) with (b - 1 + 1 * 256) by lia.
  rewrite Z_mod_plus_full, (Z.mod_small (b - 1)) by lia.
  replace (b - 1 + 1) with b by lia. apply Z.mod_small. lia.
Qed.

Lemma u8_pred : forall b, is_u8 b ->
  u8 (b + 255) = if b =? 0 then 255 else b - 1.
Proof.
  intros b [H0 H1]. unfold u8.
  destruct (Z.eqb_spec b 0) as [-> | Hne]; [reflexivity |].
  replace (b + 255) with (b - 1 + 1 * 256) by lia.
  rewrite Z_mod_plus_full. apply Z.mod_small. lia.
Qed.

Lemma vtxUpdateBandAndChannel_open : forall e s bandStep channelStep b c,
  ARMED e = false -> locked s = 0 ->
  vtxCommonGetBandAndChannel e = Some (b, c) ->
  vtxUpdateBandAndChannel e bandStep channelStep s
  = (s, [vtxCommonSetBandAndChannel (u8 (b + bandStep))
                                    (u8 (c + channelStep))]).
Proof.
  intros e s bandStep channelStep b c Harm Hlock Hbc.
  unfold vtxUpdateBandAndChannel, observeArmed.
  rewrite Harm, Hlock, Hbc. reflexivity.
Qed.

(** X2: disarmed and unlocked, the direct decrement entry points request the
    index one below the one read, and from index 0 they request 255: the
    step -1 is the [uint8_t] 255 and the sum is cut to 8 bits at the setter;
    the other coordinate is passed on as read. *)
Theorem direct_decrement_wraps_modulo_256 : forall e s b c,
  ARMED e = false -> locked s = 0 ->
  vtxCommonGetBandAndChannel e = Some (b, c) ->
  is_u8 b -> is_u8 c ->
  call DecrementBand e s
    = (s, [vtxCommonSetBandAndChannel (if b =? 0 then 255 else b - 1) c]) /\
  call DecrementChannel e s
    = (s, [vtxCommonSetBandAndChannel b (if c =? 0 then 255 else c - 1)]).
Proof.
  intros e s b c Harm Hlock Hbc Hb Hc. simpl.
  unfold vtxDecrementBand, vtxDecrementChannel.
  rewrite !(vtxUpdateBandAndChannel_open e s _ _ b c) by assumption.
  rewrite u8_minus_one, !Z.add_0_r, !u8_pred by assumption.
  rewrite (u8_small b Hb), (u8_small c Hc). split; reflexivity.
Qed.

Lemma direct_decrement_wraps_modulo_256_witness :
  call DecrementBand (bench false 0 8 0) initial
    = (initial, [vtxCommonSetBandAndChannel 255 8]) /\
  call DecrementChannel (bench false 0 8 0) initial
    = (initial, [vtxCommonSetBandAndChannel 0 7]).
Proof.
  apply (direct_decrement_wraps_modulo_256 (bench false 0 8 0) initial 0 8);
    try reflexivity; unfold is_u8; lia.
Defined.

(** X3: disarmed and unlocked, a direct single-step entry point always makes
    exactly one setter call with [uint8_t] arguments and leaves the statics
    alone, whatever the driver answers; when the band / channel read fails
    the result of the read is not looked at and the step is taken from
    (0, 0), unlike in the cyclers. *)
Theorem direct_step_ignores_failed_read : forall c e s,
  directStep c = true -> ARMED e = false -> locked s = 0 ->
  (exists b' c',
     call c e s = (s, [vtxCommonSetBandAndChannel b' c']) /\
     is_u8 b' /\ is_u8 c') /\
  (vtxCommonGetBandAndChannel e = None ->
   call IncrementBand e s = (s, [vtxCommonSetBandAndChannel 1 0]) /\
   call DecrementBand e s = (s, [vtxCommonSetBandAndChannel 255 0]) /\
   call IncrementChannel e s = (s, [vtxCommonSetBandAndChannel 0 1]) /\
   call DecrementChannel e s = (s, [vtxCommonSetBandAndChannel 0 255])).
Proof.
  intros c e s Hc Harm Hlock. split.
  - assert (Hgen : forall bandStep channelStep, exists b' c',
              vtxUpdateBandAndChannel e bandStep channelStep s
              = (s, [vtxCommonSetBandAndChannel b' c']) /\
              is_u8 b' /\ is_u8 c').
    { intros bandStep channelStep.
      unfold vtxUpdateBandAndChannel, observeArmed. rewrite Harm, Hlock. simpl.
      destruct (vtxCommonGetBandAndChannel e) as [[b0 c0] |];
        eexists; eexists; (split; [reflexivity |]);
        unfold is_u8, u8; split;
        match goal with
        | |- 0 <= ?x mod 256 <= 255 =>
            pose proof (Z.mod_pos_bound x 256); lia
        end. }
    destruct c; try discriminate; simpl; apply Hgen.
  - intros Hnone. simpl.
    unfold vtxIncrementBand, vtxDecrementBand, vtxIncrementChannel,
      vtxDecrementChannel, vtxUpdateBandAndChannel, observeArmed.
    rewrite Harm, Hlock, Hnone. simpl. repeat split.
Qed.

Lemma direct_step_ignores_failed_read_witness :
  (exists b' c',
     call DecrementChannel noInfo initial
       = (initial, [vtxCommonSetBandAndChannel b' c']) /\
     is_u8 b' /\ is_u8 c') /\
  call DecrementBand noInfo initial
    = (initial, [vtxCommonSetBandAndChannel 255 0]).
Proof.
  destruct (direct_step_ignores_failed_read DecrementChannel noInfo initial
              eq_refl eq_refl eq_refl) as [Hone Hnone].
  split; [exact Hone |]. apply (Hnone eq_refl).
Defined.

(** X4: disarmed and unlocked, with a driver that accepts what it is asked, a
    direct increment followed by the matching decrement (and a decrement
    followed by the increment) asks for the band, or the channel, that was
    there at the start, also across the 8-bit wrap at 255 and 0, and never
    changes the other coordinate. *)
Theorem direct_step_round_trip : forall e s b c,
  ARMED e = false -> locked s = 0 ->
  vtxCommonGetBandAndChannel e = Some (b, c) ->
  is_u8 b -> is_u8 c ->
  snd (call DecrementBand
         (accepted e (snd (call IncrementBand e s))) s)
    = [vtxCommonSetBandAndChannel b c] /\
  snd (call IncrementBand
         (accepted e (snd (call DecrementBand e s))) s)
    = [vtxCommonSetBandAndChannel b c] /\
  snd (call DecrementChannel
         (accepted e (snd (call IncrementChannel e s))) s)
    = [vtxCommonSetBandAndChannel b c] /\
  snd (call IncrementChannel
         (accepted e (snd (call DecrementChannel e s))) s)
    = [vtxCommonSetBandAndChannel b c].
Proof.
  intros e s b c Harm Hlock Hbc Hb Hc. simpl.
  unfold vtxIncrementBand, vtxDecrementBand, vtxIncrementChannel,
    vtxDecrementChannel.
  rewrite !(vtxUpdateBandAndChannel_open e s _ _ b c) by assumption.
  simpl.
  repeat split;
    (erewrite vtxUpdateBandAndChannel_open;
       [| exact Harm | exact Hlock | reflexivity]);
    simpl; rewrite ?u8_minus_one, ?u8_one, ?Z.add_0_r;
    rewrite ?u8_succ_pred, ?u8_pred_succ by assumption;
    rewrite ?(u8_small (u8 b)), ?(u8_small (u8 c)), ?(u8_small b),
      ?(u8_small c); try assumption; try reflexivity;
    rewrite ?(u8_small b), ?(u8_small c); assumption.
Qed.

Lemma direct_step_round_trip_witness :
  snd (call DecrementBand
         (accepted (bench false 255 0 0)
            (snd (call IncrementBand (bench false 255 0 0) initial))) initial)
    = [vtxCommonSetBandAndChannel 255 0] /\
  snd (call IncrementChannel
         (accepted (bench false 255 0 0)
            (snd (call DecrementChannel (bench false 255 0 0) initial)))
         initial)
    = [vtxCommonSetBandAndChannel 255 0].
Proof.
  destruct (direct_step_round_trip (bench false 255 0 0) initial 255 0)
    as (H1 & _ & _ & H4); try reflexivity; try (unfold is_u8; lia).
  split; assumption.
Defined.

(** ** What a poll of the activation selector can do *)

Lemma activationLoop_cases : forall e conds index last,
  activationLoop e conds index last = (last, []) \/
  exists k c,
    nth_error conds k = Some c /\ active e c = true /\
    index + Z.of_nat k <> last /\
    activationLoop e conds index last
    = (index + Z.of_nat k, [vtxCommonSetBandAndChannel (band c) (channel c)]).
Proof.
  intros e conds. induction conds as [| c0 rest IH]; intros index last.
  - left. reflexivity.
  - simpl. fold (active e c0).
    destruct (active e c0) eqn:Hact; simpl.
    + destruct (Z.eqb_spec index last) as [Heq | Hne]; simpl.
      * destruct (IH (index + 1) last) as [Hq | (k & c & Hk & Hc & Hne & Hr)].
        { left. exact Hq. }
        right. exists (S k), c. simpl. rewrite Hr.
        repeat split; auto; try lia. f_equal. lia.
      * right. exists 0%nat, c0. simpl. rewrite Z.add_0_r. auto.
    + destruct (IH (index + 1) last) as [Hq | (k & c & Hk & Hc & Hne & Hr)].
      { left. exact Hq. }
      right. exists (S k), c. simpl. rewrite Hr.
      repeat split; auto; try lia. f_equal. lia.
Qed.

(** X5: a poll of the activation selector makes at most one call, and a call
    it makes is the band / channel setter for a configured condition that is
    active and whose index differs from the last-applied one; this happens
    only disarmed with the latch open, and that index is then recorded. It
    never applies an inactive condition and never touches the power. *)
Theorem activation_poll_calls : forall e s ev,
  In ev (snd (call UpdateActivatedChannel e s)) ->
  ARMED e = false /\ locked s = 0 /\
  exists k c,
    nth_error (vtxChannelActivationConditions e) k = Some c /\
    active e c = true /\ Z.of_nat k <> lastIndex s /\
    call UpdateActivatedChannel e s
    = (mkStatics 0 (Z.of_nat k),
       [vtxCommonSetBandAndChannel (band c) (channel c)]).
Proof.
  intros e s ev. simpl. unfold vtxUpdateActivatedChannel, observeArmed.
  destruct (ARMED e); simpl; [intros [] |].
  destruct (Z.eqb_spec (locked s) 0) as [Hl | Hl]; [| intros []].
  destruct (activationLoop_cases e (vtxChannelActivationConditions e) 0
              (lastIndex s)) as [Hq | (k & c & Hk & Hc & Hne & Hr)].
  - rewrite Hq. intros [].
  - rewrite Hr. intros _. repeat split; auto.
    exists k, c. rewrite Hl. simpl in *. auto.
Qed.

Lemma activation_poll_calls_witness :
  ARMED twoConditions = false /\ locked initial = 0 /\
  exists k c,
    nth_error (vtxChannelActivationConditions twoConditions) k = Some c /\
    active twoConditions c = true /\ Z.of_nat k <> lastIndex initial /\
    call UpdateActivatedChannel twoConditions initial
    = (mkStatics 0 (Z.of_nat k),
       [vtxCommonSetBandAndChannel (band c) (channel c)]).
Proof.
  apply (activation_poll_calls twoConditions initial
           (vtxCommonSetBandAndChannel 4 7)).
  left. reflexivity.
Defined.

(** X6: on the first poll after start-up ([lastIndex] is the [uint8_t] -1,
    that is 255), disarmed and with an array of at most 255 conditions, the
    first active condition is applied whatever its index: no index of the
    array equals the start value. *)
Theorem first_poll_applies_first_active : forall e k c,
  (length (vtxChannelActivationConditions e) <= 255)%nat ->
  ARMED e = false ->
  nth_error (vtxChannelActivationConditions e) k = Some c ->
  active e c = true ->
  (forall j c', (j < k)%nat ->
     nth_error (vtxChannelActivationConditions e) j = Some c' ->
     active e c' = false) ->
  call UpdateActivatedChannel e initial
  = (mkStatics 0 (Z.of_nat k),
     [vtxCommonSetBandAndChannel (band c) (channel c)]).
Proof.
  intros e k c Hlen Harm Hk Hact Hbefore. simpl.
  unfold vtxUpdateActivatedChannel, observeArmed. rewrite Harm. simpl.
  assert (Hlt : (k < length (vtxChannelActivationConditions e))%nat).
  { apply nth_error_Some. rewrite Hk. discriminate. }
  rewrite (activationLoop_first e _ 0 (u8 (-1)) k c Hk Hact).
  - reflexivity.
  - rewrite u8_minus_one. lia.
  - intros j c' Hj Hnth Hc'. rewrite (Hbefore j c' Hj Hnth) in Hc'.
    discriminate.
Qed.

Lemma first_poll_applies_first_active_witness :
  call UpdateActivatedChannel twoConditions initial
  = (mkStatics 0 1, [vtxCommonSetBandAndChannel 4 7]).
Proof.
  apply (first_poll_applies_first_active twoConditions 1%nat
           (mkCondition 1 4 7 (mkRange 16 32)));
    try reflexivity; [simpl; lia |].
  intros j c' Hj Hnth. destruct j as [| j]; [| lia].
  simpl in Hnth. injection Hnth as <-. reflexivity.
Defined.

Lemma run_polls_two : forall e n s,
  run (repeat (UpdateActivatedChannel, e) (2 * S n)) s
  = let '(s1, evs1) := vtxUpdateActivatedChannel e s in
    let '(s2, evs2) := vtxUpdateActivatedChannel e s1 in
    let '(s3, evs3) := run (repeat (UpdateActivatedChannel, e) (2 * n)) s2 in
    (s3, evs1 ++ evs2 ++ evs3).
Proof.
  intros e n s. replace (2 * S n)%nat with (S (S (2 * n))) by lia.
  simpl repeat. cbn [run call].
  destruct (vtxUpdateActivatedChannel e s) as [s1 evs1].
  destruct (vtxUpdateActivatedChannel e s1) as [s2 evs2].
  destruct (run _ s2) as [s3 evs3]. reflexivity.
Qed.

(** X7: when two conditions are active at once, the first active one at
    index [i] and the next active one at index [j], the selector does not
    settle: disarmed and unlocked, a poll with [j] last applied sets the
    band / channel of [i], the poll after it sets those of [j] again, and so
    on, one setter call on every poll. *)
Theorem two_active_conditions_alternate : forall e i j ci cj n,
  ARMED e = false ->
  (i < j)%nat ->
  nth_error (vtxChannelActivationConditions e) i = Some ci ->
  nth_error (vtxChannelActivationConditions e) j = Some cj ->
  active e ci = true -> active e cj = true ->
  (forall k c, (k < j)%nat ->
     nth_error (vtxChannelActivationConditions e) k = Some c ->
     active e c = true -> k = i) ->
  run (repeat (UpdateActivatedChannel, e) (2 * n)) (mkStatics 0 (Z.of_nat j))
  = (mkStatics 0 (Z.of_nat j),
     concat (repeat [vtxCommonSetBandAndChannel (band ci) (channel ci);
                     vtxCommonSetBandAndChannel (band cj) (channel cj)] n)).
Proof.
  intros e i j ci cj n Harm Hij Hi Hj Hai Haj Honly.
  assert (Hfromj : vtxUpdateActivatedChannel e (mkStatics 0 (Z.of_nat j))
                   = (mkStatics 0 (Z.of_nat i),
                      [vtxCommonSetBandAndChannel (band ci) (channel ci)])).
  { unfold vtxUpdateActivatedChannel, observeArmed. rewrite Harm. simpl.
    rewrite (activationLoop_first e _ 0 (Z.of_nat j) i ci Hi Hai).
    - reflexivity.
    - lia.
    - intros k c Hk Hnth Hc.
      pose proof (Honly k c ltac:(lia) Hnth Hc). lia. }
  assert (Hfromi : vtxUpdateActivatedChannel e (mkStatics 0 (Z.of_nat i))
                   = (mkStatics 0 (Z.of_nat j),
                      [vtxCommonSetBandAndChannel (band cj) (channel cj)])).
  { unfold vtxUpdateActivatedChannel, observeArmed. rewrite Harm. simpl.
    rewrite (activationLoop_first e _ 0 (Z.of_nat i) j cj Hj Haj).
    - reflexivity.
    - lia.
    - intros k c Hk Hnth Hc. rewrite (Honly k c Hk Hnth Hc). reflexivity. }
  induction n as [| n IH].
  - reflexivity.
  - rewrite run_polls_two, Hfromj, Hfromi, IH. reflexivity.
Qed.

Lemma two_active_conditions_alternate_witness :
  run (repeat (UpdateActivatedChannel, bothActive) (2 * 2)) (mkStatics 0 2)
  = (mkStatics 0 2,
     [vtxCommonSetBandAndChannel 1 1; vtxCommonSetBandAndChannel 3 5;
      vtxCommonSetBandAndChannel 1 1; vtxCommonSetBandAndChannel 3 5]).
Proof.
  apply (two_active_conditions_alternate bothActive 0%nat 2%nat
           (mkCondition 0 1 1 (mkRange 0 16))
           (mkCondition 2 3 5 (mkRange 0 48)) 2%nat);
    try reflexivity; [lia |].
  intros k c Hk Hnth Hc. destruct k as [| [| k]]; [reflexivity | | lia].
  simpl in Hnth. injection Hnth as <-. discriminate Hc.
Defined.

(** ** The cyclers on every input *)

Lemma newBandOrChannel_any : forall current step count,
  1 <= count -> 1 <= newBandOrChannel current step count <= count.
Proof. intros current step count H. unfold newBandOrChannel. cases_Z. Qed.

Lemma newPower_any : forall power step count,
  0 <= power + step ->
  0 <= newPower power step count /\
  (1 <= count -> newPower power step count < count) /\
  (count <= 0 -> newPower power step count = 0).
Proof. intros power step count H. unfold newPower. cases_Z. Qed.

Lemma u8_range : forall z, is_u8 (u8 z).
Proof.
  intros z. unfold is_u8, u8. pose proof (Z.mod_pos_bound z 256). lia.
Qed.

(** X8: whenever both queries succeed and the device reports at least one
    band and one channel, [vtxCycleBandOrChannel] makes exactly one setter
    call with band in [1, bandCount] and channel in [1, channelCount], for
    every step pair and every band and channel read, also stale or
    out-of-range ones: with a step of 0 an index read above the count comes
    back as 1, an index read as 0 comes back as the count, and an index in
    range is kept. *)
Theorem cycle_band_channel_always_in_range :
  forall e s bandStep channelStep b c cap,
  vtxCommonGetBandAndChannel e = Some (b, c) ->
  vtxCommonGetDeviceCapability e = Some cap ->
  capability_ok cap ->
  1 <= bandCount cap -> 1 <= channelCount cap ->
  exists b' c',
    call (CycleBandOrChannel bandStep channelStep) e s
      = (s, [vtxCommonSetBandAndChannel b' c']) /\
    1 <= b' <= bandCount cap /\ 1 <= c' <= channelCount cap /\
    (u8 bandStep = 0 -> bandCount cap < b -> b' = 1) /\
    (u8 bandStep = 0 -> b = 0 -> b' = bandCount cap) /\
    (u8 bandStep = 0 -> 1 <= b <= bandCount cap -> b' = b).
Proof.
  intros e s bandStep channelStep b c cap Hbc Hcap (Hb8 & Hc8 & _) Hb1 Hc1.
  pose proof (newBandOrChannel_any b (u8 bandStep) _ Hb1) as Hb.
  pose proof (newBandOrChannel_any c (u8 channelStep) _ Hc1) as Hc.
  exists (newBandOrChannel b (u8 bandStep) (bandCount cap)),
         (newBandOrChannel c (u8 channelStep) (channelCount cap)).
  simpl. unfold vtxCycleBandOrChannel. rewrite Hbc, Hcap.
  unfold is_u8 in Hb8, Hc8.
  rewrite (u8_small (newBandOrChannel b _ _)) by (unfold is_u8; lia).
  rewrite (u8_small (newBandOrChannel c _ _)) by (unfold is_u8; lia).
  split; [reflexivity |]. split; [exact Hb |]. split; [exact Hc |].
  repeat split; intros -> H; unfold newBandOrChannel; cases_Z.
Qed.

Lemma cycle_band_channel_always_in_range_witness :
  exists b' c',
    call (CycleBandOrChannel 0 1) staleBand initial
      = (initial, [vtxCommonSetBandAndChannel b' c']) /\
    1 <= b' <= 5 /\ 1 <= c' <= 8 /\
    (u8 0 = 0 -> 5 < 9 -> b' = 1) /\
    (u8 0 = 0 -> 9 = 0 -> b' = 5) /\
    (u8 0 = 0 -> 1 <= 9 <= 5 -> b' = 9).
Proof.
  apply (cycle_band_channel_always_in_range staleBand initial 0 1 9 8
           (mkCapability 5 8 5));
    try reflexivity; unfold capability_ok, is_u8; simpl; lia.
Defined.

(** X9: when the device reports a count of 0 the cyclers still call the
    setter: a +1 step of the channel (of the band) asks for channel 1
    (band 1), outside the empty range, and a power step asks for index 0. *)
Theorem cycle_with_zero_count : forall e s b c p cap,
  vtxCommonGetBandAndChannel e = Some (b, c) ->
  vtxCommonGetPowerIndex e = Some p ->
  vtxCommonGetDeviceCapability e = Some cap ->
  is_u8 b -> is_u8 c -> is_u8 p ->
  (channelCount cap = 0 ->
   exists b', call (CycleBandOrChannel 0 1) e s
              = (s, [vtxCommonSetBandAndChannel b' 1])) /\
  (bandCount cap = 0 ->
   exists c', call (CycleBandOrChannel 1 0) e s
              = (s, [vtxCommonSetBandAndChannel 1 c'])) /\
  (powerCount cap = 0 ->
   forall step, call (CyclePower step) e s
                = (s, [vtxCommonSetPowerByIndex 0])).
Proof.
  intros e s b c p cap Hbc Hp Hcap [Hb0 Hb1] [Hc0 Hc1] [Hp0 Hp1].
  split; [| split]; intros Hzero; simpl.
  - unfold vtxCycleBandOrChannel. rewrite Hbc, Hcap, Hzero.
    assert (H1 : newBandOrChannel c (u8 1) 0 = 1)
      by (change (u8 1) with 1; unfold newBandOrChannel; cases_Z).
    rewrite H1. eexists. reflexivity.
  - unfold vtxCycleBandOrChannel. rewrite Hbc, Hcap, Hzero.
    assert (H1 : newBandOrChannel b (u8 1) 0 = 1)
      by (change (u8 1) with 1; unfold newBandOrChannel; cases_Z).
    rewrite H1. eexists. reflexivity.
  - intros step. unfold vtxCyclePower. rewrite Hp, Hcap, Hzero.
    pose proof (u8_range step) as [Hs0 Hs1].
    destruct (newPower_any p (u8 step) 0 ltac:(lia)) as (_ & _ & H0).
    rewrite H0 by lia. reflexivity.
Qed.

Lemma cycle_with_zero_count_witness :
  (exists b', call (CycleBandOrChannel 0 1) noChannels initial
              = (initial, [vtxCommonSetBandAndChannel b' 1])) /\
  (forall step, call (CyclePower step) noChannels initial
                = (initial, [vtxCommonSetPowerByIndex 0])).
Proof.
  destruct (cycle_with_zero_count noChannels initial 2 0 3
              (mkCapability 5 0 0)) as (Hch & _ & Hpw);
    try reflexivity; try (unfold is_u8; lia).
  split; [apply Hch | apply Hpw]; reflexivity.
Defined.

(** X10: whenever both queries succeed, [vtxCyclePower] makes exactly one
    setter call, for every step and every [uint8_t] power index read: the
    index asked for is never negative, it is below the count whenever the
    count is at least 1, so the count itself is never asked for, and a power
    index read at or above the count comes back as 0. *)
Theorem cycle_power_always_below_count : forall e s step p cap,
  vtxCommonGetPowerIndex e = Some p ->
  vtxCommonGetDeviceCapability e = Some cap ->
  is_u8 p -> capability_ok cap ->
  exists p',
    call (CyclePower step) e s = (s, [vtxCommonSetPowerByIndex p']) /\
    0 <= p' /\
    (1 <= powerCount cap -> p' < powerCount cap) /\
    (powerCount cap <= p -> p' = 0).
Proof.
  intros e s step p cap Hp Hcap [Hp0 Hp1] (_ & _ & Hc0 & Hc1).
  pose proof (u8_range step) as [Hs0 Hs1].
  destruct (newPower_any p (u8 step) (powerCount cap) ltac:(lia))
    as (Hn0 & Hlt & Hz).
  exists (newPower p (u8 step) (powerCount cap)). simpl.
  unfold vtxCyclePower. rewrite Hp, Hcap.
  assert (Hn1 : newPower p (u8 step) (powerCount cap) <= 255).
  { destruct (Z_le_gt_dec 1 (powerCount cap)); [specialize (Hlt l) |
      specialize (Hz ltac:(lia))]; lia. }
  rewrite u8_small by (unfold is_u8; lia).
  split; [reflexivity |]. split; [exact Hn0 |]. split; [exact Hlt |].
  intros Hge. unfold newPower. cases_Z.
Qed.

Lemma cycle_power_always_below_count_witness :
  exists p',
    call (CyclePower 1) stalePower initial
      = (initial, [vtxCommonSetPowerByIndex p']) /\
    0 <= p' /\ (1 <= 5 -> p' < 5) /\ (5 <= 7 -> p' = 0).
Proof.
  apply (cycle_power_always_below_count stalePower initial 1 7
           (mkCapability 5 8 5));
    try reflexivity; unfold capability_ok, is_u8; simpl; lia.
Defined.

(** ** Repeated +1 steps *)

Lemma newBandOrChannel_succ_mod : forall m count,
  0 <= m < count ->
  newBandOrChannel (m + 1) 1 count = (m + 1) mod count + 1.
Proof.
  intros m count H. rewrite newBandOrChannel_increment by lia.
  destruct (Z.eqb_spec (m + 1) count) as [Heq | Hne].
  - rewrite Heq, Z_mod_same_full. reflexivity.
  - rewrite Z.mod_small by lia. reflexivity.
Qed.

Lemma newPower_succ_mod : forall m count,
  0 <= m < count -> newPower m 1 count = (m + 1) mod count.
Proof.
  intros m count H. rewrite newPower_increment by lia.
  destruct (Z.eqb_spec m (count - 1)) as [Heq | Hne].
  - replace (m + 1) with count by lia. rewrite Z_mod_same_full. reflexivity.
  - rewrite Z.mod_small by lia. reflexivity.
Qed.

Lemma channel_after_steps : forall k e b c cap,
  vtxCommonGetBandAndChannel e = Some (b, c) ->
  vtxCommonGetDeviceCapability e = Some cap ->
  capability_ok cap ->
  1 <= b <= bandCount cap -> 1 <= c <= channelCount cap ->
  let e' := Nat.iter k (fun e0 => accepted e0 (vtxCycleBandOrChannel e0 0 1)) e in
  vtxCommonGetBandAndChannel e'
    = Some (b, (c - 1 + Z.of_nat k) mod channelCount cap + 1) /\
  vtxCommonGetDeviceCapability e' = Some cap.
Proof.
  induction k as [| k IH]; intros e b c cap Hbc Hcap Hok Hb Hc.
  - simpl. rewrite Z.add_0_r, Z.mod_small by lia.
    replace (c - 1 + 1) with c by lia. auto.
  - simpl Nat.iter.
    destruct (IH e b c cap Hbc Hcap Hok Hb Hc) as [Hbc' Hcap'].
    set (ek := Nat.iter k _ e) in *.
    pose proof (Z.mod_pos_bound (c - 1 + Z.of_nat k) (channelCount cap)
                  ltac:(lia)) as Hm.
    rewrite (vtxCycleBandOrChannel_channel ek b _ cap 1 Hbc' Hcap' Hok Hb
               ltac:(lia) (or_introl eq_refl)).
    change (u8 1) with 1. rewrite newBandOrChannel_succ_mod by exact Hm.
    rewrite Zplus_mod_idemp_l. simpl.
    replace (c - 1 + Z.of_nat k + 1) with (c - 1 + Z.of_nat (S k)) by lia.
    split; [reflexivity | exact Hcap'].
Qed.

Lemma power_after_steps : forall k e p cap,
  vtxCommonGetPowerIndex e = Some p ->
  vtxCommonGetDeviceCapability e = Some cap ->
  capability_ok cap ->
  0 <= p <= powerCount cap - 1 ->
  let e' := Nat.iter k (fun e0 => accepted e0 (vtxCyclePower e0 1)) e in
  vtxCommonGetPowerIndex e' = Some ((p + Z.of_nat k) mod powerCount cap) /\
  vtxCommonGetDeviceCapability e' = Some cap.
Proof.
  induction k as [| k IH]; intros e p cap Hp Hcap Hok Hr.
  - simpl. rewrite Z.add_0_r, Z.mod_small by lia. auto.
  - simpl Nat.iter.
    destruct (IH e p cap Hp Hcap Hok Hr) as [Hp' Hcap'].
    set (ek := Nat.iter k _ e) in *.
    pose proof (Z.mod_pos_bound (p + Z.of_nat k) (powerCount cap)
                  ltac:(lia)) as Hm.
    rewrite (vtxCyclePower_step ek _ cap 1 Hp' Hcap' Hok ltac:(lia)
               (or_introl eq_refl)).
    rewrite newPower_succ_mod by exact Hm.
    rewrite Zplus_mod_idemp_l. simpl.
    replace (p + Z.of_nat k + 1) with (p + Z.of_nat (S k)) by lia.
    split; [reflexivity | exact Hcap'].
Qed.

(** X11: with a driver that accepts what it is asked and indices in range,
    [k] successive +1 channel steps of [vtxCycleBandOrChannel] leave the band
    alone and move channel [c] to ((c - 1 + k) mod channelCount) + 1, and [k]
    successive +1 steps of [vtxCyclePower] move power index [p] to
    (p + k) mod powerCount: the +1 step runs through every index in turn
    and is back at the start after exactly count steps. *)
Theorem repeated_steps_cycle_through_all : forall k e b c p cap,
  vtxCommonGetBandAndChannel e = Some (b, c) ->
  vtxCommonGetPowerIndex e = Some p ->
  vtxCommonGetDeviceCapability e = Some cap ->
  capability_ok cap ->
  1 <= b <= bandCount cap -> 1 <= c <= channelCount cap ->
  0 <= p <= powerCount cap - 1 ->
  vtxCommonGetBandAndChannel
    (Nat.iter k (fun e0 => accepted e0 (vtxCycleBandOrChannel e0 0 1)) e)
    = Some (b, (c - 1 + Z.of_nat k) mod channelCount cap + 1) /\
  vtxCommonGetPowerIndex
    (Nat.iter k (fun e0 => accepted e0 (vtxCyclePower e0 1)) e)
    = Some ((p + Z.of_nat k) mod powerCount cap) /\
  vtxCommonGetBandAndChannel
    (Nat.iter (Z.to_nat (channelCount cap))
       (fun e0 => accepted e0 (vtxCycleBandOrChannel e0 0 1)) e)
    = Some (b, c) /\
  vtxCommonGetPowerIndex
    (Nat.iter (Z.to_nat (powerCount cap))
       (fun e0 => accepted e0 (vtxCyclePower e0 1)) e)
    = Some p.
Proof.
  intros k e b c p cap Hbc Hp Hcap Hok Hb Hc Hr.
  split; [apply (channel_after_steps k e b c cap); assumption |].
  split; [apply (power_after_steps k e p cap); assumption |].
  split.
  - rewrite (proj1 (channel_after_steps _ e b c cap Hbc Hcap Hok Hb Hc)).
    rewrite Z2Nat.id by lia.
    replace (c - 1 + channelCount cap)
      with (c - 1 + 1 * channelCount cap) by lia.
    rewrite Z_mod_plus_full, Z.mod_small by lia.
    replace (c - 1 + 1) with c by lia. reflexivity.
  - rewrite (proj1 (power_after_steps _ e p cap Hp Hcap Hok Hr)).
    rewrite Z2Nat.id by lia.
    replace (p + powerCount cap) with (p + 1 * powerCount cap) by lia.
    rewrite Z_mod_plus_full, Z.mod_small by lia. reflexivity.
Qed.

Lemma repeated_steps_cycle_through_all_witness :
  vtxCommonGetBandAndChannel
    (Nat.iter 3 (fun e0 => accepted e0 (vtxCycleBandOrChannel e0 0 1))
       (bench false 2 7 4))
    = Some (2, (7 - 1 + Z.of_nat 3) mod 8 + 1) /\
  vtxCommonGetPowerIndex
    (Nat.iter 5 (fun e0 => accepted e0 (vtxCyclePower e0 1))
       (bench false 2 7 4))
    = Some 4.
Proof.
  destruct (repeated_steps_cycle_through_all 3 (bench false 2 7 4) 2 7 4
              (mkCapability 5 8 5)) as (H1 & _ & _ & H4);
    try reflexivity; try (unfold capability_ok, is_u8; simpl; lia).
  split; [exact H1 | exact H4].
Defined.

(** ** The hold loop on arbitrary clock samples *)

Lemma fold_classify_quiet : forall start ends counter,
  Forall (fun end_ => cmpTimeUs end_ start <= 25000) ends ->
  fold_left (fun c end_ => classify (cmpTimeUs end_ start) c) ends counter
  = counter.
Proof.
  intros start ends. induction ends as [| end_ rest IH]; intros counter H.
  - reflexivity.
  - inversion H; subst. simpl. rewrite classify_debounce by assumption.
    apply IH. assumption.
Qed.

Lemma fold_classify_latched : forall start ends counter,
  counter <> 0 ->
  fold_left (fun c end_ => classify (cmpTimeUs end_ start) c) ends counter
  <> 0.
Proof.
  intros start ends. induction ends as [| end_ rest IH]; intros counter H.
  - exact H.
  - simpl. apply IH. intros H0. apply classify_zero in H0. contradiction.
Qed.

Lemma fold_classify_reached : forall start ends counter,
  Exists (fun end_ => 25000 < cmpTimeUs end_ start) ends ->
  fold_left (fun c end_ => classify (cmpTimeUs end_ start) c) ends counter
  <> 0.
Proof.
  intros start ends. induction ends as [| end_ rest IH]; intros counter H.
  - inversion H.
  - simpl. inversion H as [? ? Hhd | ? ? Htl]; subst.
    + apply fold_classify_latched.
      rewrite classify_past_debounce by exact Hhd.
      pose proof (tierSpec_antitone _ _ Hhd (Z.le_refl _)). lia.
    + apply IH. exact Htl.
Qed.

(** X12: whatever the clock samples are, the handler does something exactly
    when some poll of the hold saw more than 25 ms elapsed. If every poll saw
    at most 25 ms (or there was no poll at all) it makes no call, not even
    to the LED; as soon as one poll saw more, the tier is latched in 1..4
    for the rest of the hold and the release switches the LED off and
    dispatches on that tier. *)
Theorem debounce_decides_dispatch : forall e start ends,
  (Forall (fun end_ => cmpTimeUs end_ start <= 25000) ends ->
   handleVTXControlButton e start ends = []) /\
  (Exists (fun end_ => 25000 < cmpTimeUs end_ start) ends ->
   1 <= tierAtRelease start ends <= 4 /\
   handleVTXControlButton e start ends
   = snd (holdLoop start (holdStart start) ends)
     ++ LED1_OFF :: dispatch e (tierAtRelease start ends)).
Proof.
  intros e start ends.
  assert (Htier : tierAtRelease start ends
                  = fold_left (fun c end_ => classify (cmpTimeUs end_ start) c)
                              ends 0).
  { unfold tierAtRelease. rewrite holdLoop_actionCounter. reflexivity. }
  destruct (handleVTXControlButton_cases e start ends)
    as [[H0 Hnone] | [Hr Hsome]]; split; intros H.
  - exact Hnone.
  - exfalso. rewrite Htier in H0.
    apply (fold_classify_reached start ends 0 H). exact H0.
  - exfalso. rewrite Htier, fold_classify_quiet in Hr by exact H. lia.
  - split; assumption.
Qed.

Lemma debounce_decides_dispatch_witness :
  handleVTXControlButton (bench false 2 3 0) 100 [5000; 25100; 90] = [] /\
  handleVTXControlButton (bench false 2 3 0) 100 [5000; 25101; 90]
  = snd (holdLoop 100 (holdStart 100) [5000; 25101; 90])
    ++ LED1_OFF
       :: dispatch (bench false 2 3 0) (tierAtRelease 100 [5000; 25101; 90]).
Proof.
  split.
  - apply (proj1 (debounce_decides_dispatch (bench false 2 3 0) 100
                    [5000; 25100; 90])).
    repeat (apply Forall_cons; [vm_compute; discriminate |]).
    apply Forall_nil.
  - apply (proj2 (debounce_decides_dispatch (bench false 2 3 0) 100
                    [5000; 25101; 90])).
    apply Exists_cons_tl. apply Exists_cons_hd. vm_compute. reflexivity.
Defined.

(** ** The LED *)

Lemma holdPoll_led : forall start h end_,
  (snd (holdPoll start h end_) = [] /\
   ledEnabled (fst (holdPoll start h end_)) = ledEnabled h) \/
  (snd (holdPoll start h end_) = blinkPattern (ledEnabled h) 1 /\
   ledEnabled (fst (holdPoll start h end_)) = negb (ledEnabled h)).
Proof.
  intros start h end_. unfold holdPoll.
  destruct (classify _ _ =? 0); [left; split; reflexivity |].
  destruct (cmpTimeUs (ledToggleAt h) end_ <? 0);
    [| left; split; reflexivity].
  right. destruct (ledEnabled h); cbn [negb];
    match goal with
    | |- context [if ?a =? ?b then _ else _] => destruct (a =? b)
    end; split; reflexivity.
Qed.

Lemma iter_negb_shift : forall n on,
  Nat.iter n negb (negb on) = negb (Nat.iter n negb on).
Proof.
  induction n as [| n IH]; intros on; simpl; [reflexivity |].
  rewrite IH. reflexivity.
Qed.

Lemma holdLoop_led : forall start ends h,
  exists n, (n <= length ends)%nat /\
    snd (holdLoop start h ends) = blinkPattern (ledEnabled h) n /\
    ledEnabled (fst (holdLoop start h ends)) = Nat.iter n negb (ledEnabled h).
Proof.
  intros start ends. induction ends as [| end_ rest IH]; intros h.
  - exists 0%nat. simpl. auto.
  - simpl. pose proof (holdPoll_led start h end_) as Hp.
    destruct (holdPoll start h end_) as [h1 evs1]. simpl in Hp.
    destruct (IH h1) as (n & Hn & Hevs & Hled).
    destruct (holdLoop start h1 rest) as [h2 evs2]. simpl in *.
    destruct Hp as [[-> Hl1] | [-> Hl1]]; rewrite Hl1 in *.
    + exists n. simpl. repeat split; auto.
    + exists (S n). subst evs2. simpl. repeat split; auto; try lia.
      rewrite Hled. apply iter_negb_shift.
Qed.

Lemma vtxCycleBandOrChannel_no_led : forall e bandStep channelStep,
  filter isLed (vtxCycleBandOrChannel e bandStep channelStep) = [].
Proof.
  intros e bandStep channelStep. unfold vtxCycleBandOrChannel.
  destruct (vtxCommonGetBandAndChannel e) as [[b c] |]; [| reflexivity].
  destruct (vtxCommonGetDeviceCapability e); reflexivity.
Qed.

Lemma vtxCyclePower_no_led : forall e powerStep,
  filter isLed (vtxCyclePower e powerStep) = [].
Proof.
  intros e powerStep. unfold vtxCyclePower.
  destruct (vtxCommonGetPowerIndex e); [| reflexivity].
  destruct (vtxCommonGetDeviceCapability e); reflexivity.
Qed.

Lemma dispatch_no_led : forall e counter, filter isLed (dispatch e counter) = [].
Proof.
  intros e counter. unfold dispatch.
  destruct (counter =? 4); [apply vtxCycleBandOrChannel_no_led |].
  destruct (counter =? 3); [apply vtxCycleBandOrChannel_no_led |].
  destruct (counter =? 2); [apply vtxCyclePower_no_led |].
  destruct (counter =? 1); reflexivity.
Qed.

Lemma filter_isLed_blink : forall evs,
  forallb isLed evs = true -> filter isLed evs = evs.
Proof.
  induction evs as [| ev evs IH]; simpl; intros H; [reflexivity |].
  apply andb_prop in H. destruct H as [H1 H2].
  rewrite H1, IH by exact H2. reflexivity.
Qed.

(** X13: during the hold the LED is only ever toggled: the LED calls of the
    loop are LED1_ON, LED1_OFF, LED1_ON, ... in strict alternation starting
    with LED1_ON, at most one per poll. And the handler never leaves the LED
    lit: among all its calls the LED calls are either none at all or end
    with LED1_OFF, and no LED call follows the dispatched action. *)
Theorem led_alternates_and_ends_off : forall e start ends,
  (exists n, (n <= length ends)%nat /\
     snd (holdLoop start (holdStart start) ends) = blinkPattern false n) /\
  (handleVTXControlButton e start ends = [] \/
   exists n,
     filter isLed (handleVTXControlButton e start ends)
     = blinkPattern false n ++ [LED1_OFF] /\
     handleVTXControlButton e start ends
     = blinkPattern false n
       ++ LED1_OFF :: dispatch e (tierAtRelease start ends)).
Proof.
  intros e start ends.
  destruct (holdLoop_led start ends (holdStart start)) as (n & Hn & Hevs & _).
  simpl in Hevs. split; [exists n; auto |].
  destruct (handleVTXControlButton_cases e start ends)
    as [[_ Hnone] | [_ Hsome]]; [left; exact Hnone |].
  right. exists n. rewrite Hsome, Hevs. split; [| reflexivity].
  rewrite filter_app. simpl. rewrite dispatch_no_led.
  rewrite filter_isLed_blink; [reflexivity |].
  rewrite <- Hevs.
  apply (holdLoop_inv start ends _ (holdStart_inv start)).
Qed.

(** ** Independence of the absolute clock value *)

Local Ltac mod32 :=
  unfold cmpTimeUs, i32, u32, updateDuration in *;
  Z.div_mod_to_equations; lia.

Lemma cmpTimeUs_shift_start : forall start d,
  cmpTimeUs (u32 (start + d)) start = cmpTimeUs (u32 d) 0.
Proof. intros start d. mod32. Qed.

Lemma cmpTimeUs_shift_toggle : forall start d t t0,
  u32 (t - start) = u32 t0 ->
  cmpTimeUs t (u32 (start + d)) = cmpTimeUs t0 (u32 d).
Proof. intros start d t t0 H. mod32. Qed.

Lemma toggle_shift : forall start d,
  u32 (u32 (u32 (start + d) + updateDuration) - start)
  = u32 (u32 (u32 d + updateDuration)).
Proof. intros start d. mod32. Qed.

Lemma toggle_pause_shift : forall start d x,
  u32 (u32 (u32 (u32 (start + d) + updateDuration) + x) - start)
  = u32 (u32 (u32 (u32 d + updateDuration) + x)).
Proof. intros start d x. mod32. Qed.

Lemma holdPoll_shift : forall start d h h0,
  shifted start h h0 ->
  snd (holdPoll start h (u32 (start + d))) = snd (holdPoll 0 h0 (u32 d)) /\
  shifted start (fst (holdPoll start h (u32 (start + d))))
                (fst (holdPoll 0 h0 (u32 d))).
Proof.
  intros start d [bwp t en fl ac] [bwp0 t0 en0 fl0 ac0].
  unfold shifted. cbn [buttonWasPressed ledEnabled flashesDone actionCounter
                       ledToggleAt].
  intros (-> & -> & -> & -> & Ht).
  unfold holdPoll.
  cbn [buttonWasPressed ledEnabled flashesDone actionCounter ledToggleAt].
  rewrite cmpTimeUs_shift_start, (cmpTimeUs_shift_toggle start d t t0 Ht).
  destruct (classify (cmpTimeUs (u32 d) 0) ac0 =? 0).
  { cbn [fst snd buttonWasPressed ledEnabled flashesDone actionCounter
         ledToggleAt]. repeat (split; [reflexivity |]). exact Ht. }
  destruct (cmpTimeUs t0 (u32 d) <? 0).
  - match goal with
    | |- context [if ?a =? ?b then _ else _] => destruct (a =? b)
    end;
    cbn [fst snd buttonWasPressed ledEnabled flashesDone actionCounter
         ledToggleAt];
    (split; [reflexivity |]); repeat (split; [reflexivity |]).
    + apply toggle_pause_shift.
    + apply toggle_shift.
  - cbn [fst snd buttonWasPressed ledEnabled flashesDone actionCounter
         ledToggleAt]. repeat (split; [reflexivity |]). exact Ht.
Qed.

Lemma holdLoop_shift : forall start ds h h0,
  shifted start h h0 ->
  snd (holdLoop start h (samples start ds))
    = snd (holdLoop 0 h0 (samples 0 ds)) /\
  shifted start (fst (holdLoop start h (samples start ds)))
                (fst (holdLoop 0 h0 (samples 0 ds))).
Proof.
  intros start ds. induction ds as [| d ds IH]; intros h h0 Hs.
  - split; [reflexivity | exact Hs].
  - cbn [samples map holdLoop]. change (0 + d) with d.
    fold (samples start ds). fold (samples 0 ds).
    destruct (holdPoll_shift start d h h0 Hs) as [Hevs Hs1].
    destruct (holdPoll start h (u32 (start + d))) as [h1 evs1].
    destruct (holdPoll 0 h0 (u32 d)) as [h1' evs1'].
    cbn [fst snd] in Hevs, Hs1.
    destruct (IH h1 h1' Hs1) as [Hevs2 Hs2].
    destruct (holdLoop start h1 (samples start ds)) as [h2 evs2].
    destruct (holdLoop 0 h1' (samples 0 ds)) as [h2' evs2'].
    cbn [fst snd] in *. subst. split; [reflexivity | exact Hs2].
Qed.

(** X14: the handler depends only on the times elapsed since its first clock
    sample, not on the value of the clock: for every start value and every
    list of elapsed times, the calls made, the tier included, are those made
    with the clock started at 0. A wrap-around of the 32-bit microsecond
    counter during the hold therefore changes nothing. *)
Theorem handler_independent_of_clock_origin : forall e start ds,
  handleVTXControlButton e start (samples start ds)
    = handleVTXControlButton e 0 (samples 0 ds) /\
  tierAtRelease start (samples start ds) = tierAtRelease 0 (samples 0 ds).
Proof.
  intros e start ds.
  assert (Hs0 : shifted start (holdStart start) (holdStart 0)).
  { unfold shifted, holdStart.
    cbn [buttonWasPressed ledEnabled flashesDone actionCounter ledToggleAt].
    rewrite Z.sub_diag. repeat (split; [reflexivity |]). reflexivity. }
  destruct (holdLoop_shift start ds _ _ Hs0) as [Hevs (Hb & _ & _ & Ha & _)].
  unfold handleVTXControlButton, tierAtRelease.
  destruct (holdLoop start (holdStart start) (samples start ds)) as [h evs].
  destruct (holdLoop 0 (holdStart 0) (samples 0 ds)) as [h0 evs0].
  cbn [fst snd] in *. subst. rewrite Hb, Ha. auto.
Qed.

(** ** Holds longer than the signed difference can tell *)

Lemma tierAtRelease_snoc : forall start ends end_,
  tierAtRelease start (ends ++ [end_])
  = classify (cmpTimeUs end_ start) (tierAtRelease start ends).
Proof.
  intros start ends end_. unfold tierAtRelease.
  rewrite !holdLoop_actionCounter, fold_left_app. reflexivity.
Qed.

Lemma samples_snoc : forall start ds d,
  samples start (ds ++ [d]) = samples start ds ++ [u32 (start + d)].
Proof. intros start ds d. unfold samples. rewrite map_app. reflexivity. Qed.

(** X15: the tier follows the elapsed time only as far as the signed 32-bit
    difference can tell. A poll between 2^31 and 2^32 microseconds into the
    hold sees a negative difference and leaves the tier as it was; a poll at
    2^32 microseconds plus [d] is classified like one at [d], so after the
    counter has gone round once the tier is 4 again for [d] in
    (25 ms, 1 s], whatever it was before. *)
Theorem tier_follows_elapsed_modulo_2_32 : forall start ds d,
  (2147483648 <= d < 4294967296 ->
   tierAtRelease start (samples start (ds ++ [d]))
   = tierAtRelease start (samples start ds)) /\
  (25000 < d <= 1000000 ->
   tierAtRelease start (samples start (ds ++ [4294967296 + d])) = 4).
Proof.
  intros start ds d. split; intros Hd;
    rewrite samples_snoc, tierAtRelease_snoc.
  - apply classify_debounce.
    assert (Hc : cmpTimeUs (u32 (start + d)) start = d - 4294967296)
      by mod32.
    rewrite Hc. lia.
  - assert (Hc : cmpTimeUs (u32 (start + (4294967296 + d))) start = d)
      by mod32.
    rewrite Hc, classify_past_debounce by lia.
    unfold tierSpec. cases_Z.
Qed.

Lemma tier_follows_elapsed_modulo_2_32_witness :
  tierAtRelease 9 (samples 9 ([6000000] ++ [3000000000]))
    = tierAtRelease 9 (samples 9 [6000000]) /\
  tierAtRelease 9 (samples 9 ([6000000] ++ [4294967296 + 500000])) = 4.
Proof.
  split.
  - apply (proj1 (tier_follows_elapsed_modulo_2_32 9 [6000000] 3000000000)).
    lia.
  - apply (proj2 (tier_follows_elapsed_modulo_2_32 9 [6000000] 500000)).
    lia.
Defined.

(** ** From the hold to the driver *)

(** X16: a hold polled forward in time and released, on a device that
    answers its queries with indices in range: by the time elapsed at the
    last poll the handler ends, after its blink calls and the LED-off, with
    exactly the channel stepped by one (25 ms to 1 s), the band stepped by
    one (1 s to 3 s), the power index stepped by one (3 s to 5 s), each
    wrapping from the top index to the bottom one, or the configuration
    saved (above 5 s); up to 25 ms nothing is called. *)
Theorem hold_and_release : forall e start ds d b c p cap,
  Sorted Z.le (ds ++ [d]) -> Forall inHold (ds ++ [d]) ->
  vtxCommonGetBandAndChannel e = Some (b, c) ->
  vtxCommonGetPowerIndex e = Some p ->
  vtxCommonGetDeviceCapability e = Some cap ->
  capability_ok cap ->
  1 <= b <= bandCount cap -> 1 <= c <= channelCount cap ->
  0 <= p <= powerCount cap - 1 ->
  (d <= 25000 ->
   handleVTXControlButton e start (samples start (ds ++ [d])) = []) /\
  (25000 < d <= 1000000 ->
   handleVTXControlButton e start (samples start (ds ++ [d]))
   = snd (holdLoop start (holdStart start) (samples start (ds ++ [d])))
     ++ [LED1_OFF;
         vtxCommonSetBandAndChannel
           b (if c =? channelCount cap then 1 else c + 1)]) /\
  (1000000 < d <= 3000000 ->
   handleVTXControlButton e start (samples start (ds ++ [d]))
   = snd (holdLoop start (holdStart start) (samples start (ds ++ [d])))
     ++ [LED1_OFF;
         vtxCommonSetBandAndChannel
           (if b =? bandCount cap then 1 else b + 1) c]) /\
  (3000000 < d <= 5000000 ->
   handleVTXControlButton e start (samples start (ds ++ [d]))
   = snd (holdLoop start (holdStart start) (samples start (ds ++ [d])))
     ++ [LED1_OFF;
         vtxCommonSetPowerByIndex
           (if p =? powerCount cap - 1 then 0 else p + 1)]) /\
  (5000000 < d ->
   handleVTXControlButton e start (samples start (ds ++ [d]))
   = snd (holdLoop start (holdStart start) (samples start (ds ++ [d])))
     ++ [LED1_OFF; saveConfigAndNotify]).
Proof.
  intros e start ds d b c p cap Hs Hr Hbc Hp Hcap Hok Hb Hc Hpr.
  pose proof (tierAtRelease_samples start _ Hs Hr) as Htier.
  rewrite last_last in Htier.
  destruct (handleVTXControlButton_cases e start (samples start (ds ++ [d])))
    as [[H0 Hnone] | [Hr14 Hsome]].
  - rewrite Htier in H0.
    repeat split; intros Hd; try exact Hnone;
      exfalso; revert H0; unfold tierSpec; cases_Z.
  - rewrite Htier in Hr14, Hsome. rewrite Hsome.
    split; [intros Hd; exfalso; revert Hr14; unfold tierSpec; cases_Z |].
    repeat split; intros Hd; do 2 f_equal.
    + replace (tierSpec d) with 4 by (unfold tierSpec; cases_Z).
      unfold dispatch. cbn [Z.eqb Pos.eqb].
      rewrite (vtxCycleBandOrChannel_channel e b c cap (u8 1) Hbc Hcap Hok
                 Hb Hc (or_introl eq_refl)).
      change (u8 1) with 1. rewrite newBandOrChannel_increment by exact Hc.
      reflexivity.
    + replace (tierSpec d) with 3 by (unfold tierSpec; cases_Z).
      unfold dispatch. cbn [Z.eqb Pos.eqb].
      rewrite (vtxCycleBandOrChannel_band e b c cap (u8 1) Hbc Hcap Hok
                 Hb Hc (or_introl eq_refl)).
      change (u8 1) with 1. rewrite newBandOrChannel_increment by exact Hb.
      reflexivity.
    + replace (tierSpec d) with 2 by (unfold tierSpec; cases_Z).
      unfold dispatch. cbn [Z.eqb Pos.eqb].
      rewrite (vtxCyclePower_step e p cap (u8 1) Hp Hcap Hok Hpr
                 (or_introl eq_refl)).
      change (u8 1) with 1. rewrite newPower_increment by exact Hpr.
      reflexivity.
    + replace (tierSpec d) with 1 by (unfold tierSpec; cases_Z).
      reflexivity.
Qed.

Lemma hold_and_release_witness :
  handleVTXControlButton (bench false 2 3 4) 50
    (samples 50 ([100000; 2000000] ++ [4200000]))
  = snd (holdLoop 50 (holdStart 50)
           (samples 50 ([100000; 2000000] ++ [4200000])))
    ++ [LED1_OFF; vtxCommonSetPowerByIndex (if 4 =? 5 - 1 then 0 else 4 + 1)].
Proof.
  apply (hold_and_release (bench false 2 3 4) 50 [100000; 2000000] 4200000
           2 3 4 (mkCapability 5 8 5));
    try reflexivity; try (unfold capability_ok, is_u8; simpl; lia).
  - repeat constructor; lia.
  - repeat (apply Forall_cons; [unfold inHold; lia |]). apply Forall_nil.
Defined.

(** X17: when the device gives no capability, a release never reaches a
    driver setter, whatever the hold was: the handler makes no call at all,
    or its blink calls and the LED-off, followed by the save of the
    configuration only when the tier is 1. *)
Theorem release_without_capability : forall e start ends,
  vtxCommonGetDeviceCapability e = None ->
  noDriverSet (handleVTXControlButton e start ends) = true /\
  (handleVTXControlButton e start ends = [] \/
   handleVTXControlButton e start ends
   = snd (holdLoop start (holdStart start) ends)
     ++ LED1_OFF :: (if tierAtRelease start ends =? 1
                     then [saveConfigAndNotify] else [])).
Proof.
  intros e start ends Hcap.
  assert (Hd : forall counter,
            dispatch e counter
            = if counter =? 1 then [saveConfigAndNotify] else []).
  { intros counter. unfold dispatch, vtxCycleBandOrChannel, vtxCyclePower.
    rewrite Hcap.
    destruct (Z.eqb_spec counter 4) as [-> | _];
      [destruct (vtxCommonGetBandAndChannel e) as [[b c] |]; reflexivity |].
    destruct (Z.eqb_spec counter 3) as [-> | _];
      [destruct (vtxCommonGetBandAndChannel e) as [[b c] |]; reflexivity |].
    destruct (Z.eqb_spec counter 2) as [-> | _];
      [destruct (vtxCommonGetPowerIndex e); reflexivity |].
    reflexivity. }
  destruct (handleVTXControlButton_cases e start ends)
    as [[_ Hnone] | [_ Hsome]].
  - rewrite Hnone. split; [reflexivity | left; reflexivity].
  - rewrite Hsome, Hd. split; [| right; reflexivity].
    unfold noDriverSet. rewrite forallb_app.
    destruct (holdLoop_inv start ends _ (holdStart_inv start))
      as (_ & Hled & _).
    assert (Hblink : forall evs, forallb isLed evs = true ->
              forallb (fun ev => negb (isDriverSet ev)) evs = true).
    { induction evs as [| ev evs IH]; simpl; intros H; [reflexivity |].
      apply andb_prop in H. destruct H as [H1 H2].
      rewrite (IH H2). destruct ev; try discriminate; reflexivity. }
    rewrite (Hblink _ Hled).
    destruct (tierAtRelease start ends =? 1); reflexivity.
Qed.

Lemma release_without_capability_witness :
  noDriverSet (handleVTXControlButton noCapability 0 [500000]) = true.
Proof.
  apply (release_without_capability noCapability 0 [500000]). reflexivity.
Defined.
